(** * qtimaker: the QTI 2.1 assessment generator ([xml_assessment_v2.py])

    A shallow embedding of [assessment_v2] and of the string templates it
    instantiates, followed by a reading of the emitted response processing
    and the properties of the generator that the specification states.

    Conventions.
    - Python [str] is [string]; [TEMPLATE.format(k=v, ...)] is a function of
      the placeholders that concatenates the literal pieces of the template.
    - The list [xml] that the generator appends to is threaded explicitly;
      the final [''.join(xml)] is [String.concat "" xml].
    - [raise] is the [Raise] constructor of [result].
    - Point values are Python integers, modelled by [Z]; a float number of
      points is outside this model.
    - The classes [Quiz], [Question], [Choice], [Group] and [TextRegion]
      of [quiz.py] appear as records with the attributes that the generator
      reads. *)

From Stdlib Require Import String Ascii List ZArith Lia Bool.
From Stdlib Require Import QArith.
From Stdlib Require Import DecimalString.
From Stdlib Require Import Permutation.
Import ListNotations.

Local Open Scope string_scope.
Local Open Scope Z_scope.

(** ** Strings *)

(** The two characters that the templates need and that a literal here
    does not spell: the line feed and the double quote. *)
Definition nl : string := String (ascii_of_nat 10) EmptyString.
Definition dq : string := String (ascii_of_nat 34) EmptyString.

(** [ name="value"], with its leading blank. *)
Definition attr (name value : string) : string :=
  " " ++ name ++ "=" ++ dq ++ value ++ dq.

(** [str(n)] for a Python integer. *)
Definition str_of_Z (n : Z) : string := NilZero.string_of_int (Z.to_int n).

(** [str(len(l))]. *)
Definition str_of_len {A : Type} (l : list A) : string :=
  str_of_Z (Z.of_nat (List.length l)).

(** [x in (t1, ..., tn)] for strings. *)
Definition str_in (x : string) (ts : list string) : bool :=
  existsb (String.eqb x) ts.

(** ** Exceptions *)

Inductive exn : Type := TypeError | ValueError.

Inductive result (A : Type) : Type :=
| Ok (a : A)
| Raise (e : exn).
Arguments Ok {A} a.
Arguments Raise {A} e.

Definition bind {A B : Type} (c : result A) (k : A -> result B) : result B :=
  match c with
  | Ok a => k a
  | Raise e => Raise e
  end.

Notation "x <- c ;; k" := (bind c (fun x => k))
  (at level 61, c at next level, right associativity).

(** ** The quiz model, as the generator reads it *)

Module Choice.
Record t : Type := mk {
  id : string;
  correct : bool;
  choice_xml : string;
  choice_html_xml : string
}.
End Choice.

Module Question.
Record t : Type := mk {
  id : string;
  title_xml : string;
  type : string;
  question_html_xml : string;
  points_possible : Z;
  choices : list Choice.t;
  numerical_exact : option Q;
  numerical_exact_html_xml : string;
  numerical_min_html_xml : string;
  numerical_max_html_xml : string;
  correct_feedback_raw : option string;
  correct_feedback_html_xml : string;
  incorrect_feedback_raw : option string;
  incorrect_feedback_html_xml : string;
  feedback_raw : option string;
  feedback_html_xml : string
}.
End Question.

Module Group.
Record t : Type := mk {
  id : string;
  title_xml : string;
  pick : Z;
  points_per_question : Z
}.
End Group.

Module TextRegion.
Record t : Type := mk {
  id : string;
  title_xml : string;
  text_html_xml : string
}.
End TextRegion.

(** One element of [quiz.questions_and_delims].  [Other] stands for an
    object of any class besides the four that the generator tests for. *)
Inductive entry : Type :=
| IsQuestion (question : Question.t)
| IsGroupStart (group : Group.t)
| IsGroupEnd
| IsTextRegion (region : TextRegion.t)
| Other.

Module Quiz.
Record t : Type := mk {
  questions_and_delims : list entry;
  shuffle_answers_xml : string
}.
End Quiz.

(** The seven values of [question.type] that the generator names. *)
Definition true_false_question : string := "true_false_question".
Definition multiple_choice_question : string := "multiple_choice_question".
Definition multiple_answers_question : string := "multiple_answers_question".
Definition short_answer_question : string := "short_answer_question".
Definition numerical_question : string := "numerical_question".
Definition essay_question : string := "essay_question".
Definition file_upload_question : string := "file_upload_question".

(** ** The templates *)

Definition BEFORE_ITEMS (assessment_identifier title : string) : string :=
  "<?xml" ++ attr "version" "1.0" ++ attr "encoding" "UTF-8" ++ "?>" ++ nl ++
  "<assessmentTest"
    ++ attr "xmlns" "http://www.imsglobal.org/xsd/imsqti_v2p1"
    ++ attr "xmlns:xsi" "http://www.w3.org/2001/XMLSchema-instance"
    ++ attr "xsi:schemaLocation"
         "http://www.imsglobal.org/xsd/imsqti_v2p1 http://www.imsglobal.org/xsd/imsqti_v2p1.xsd"
    ++ attr "identifier" assessment_identifier
    ++ attr "title" title ++ ">" ++ nl ++
  "  <testPart" ++ attr "identifier" "testpart1"
    ++ attr "navigationMode" "nonlinear"
    ++ attr "submissionMode" "individual" ++ ">" ++ nl ++
  "    <assessmentSection" ++ attr "identifier" "root_section"
    ++ attr "title" title ++ ">" ++ nl.

Definition AFTER_ITEMS (points_possible : string) : string :=
  "    </assessmentSection>" ++ nl ++
  "  </testPart>" ++ nl ++
  "  <outcomeDeclaration" ++ attr "identifier" "SCORE"
    ++ attr "baseType" "float" ++ attr "cardinality" "single" ++ "/>" ++ nl ++
  "  <outcomeDeclaration" ++ attr "identifier" "MAXSCORE"
    ++ attr "baseType" "float" ++ attr "cardinality" "single" ++ ">" ++ nl ++
  "    <defaultValue>" ++ nl ++
  "      <value>" ++ points_possible ++ "</value>" ++ nl ++
  "    </defaultValue>" ++ nl ++
  "  </outcomeDeclaration>" ++ nl ++
  "</assessmentTest>" ++ nl.

Definition GROUP_START (ident group_title pick points_per_item : string)
  : string :=
  "      <assessmentSection" ++ attr "identifier" ident
    ++ attr "title" group_title ++ ">" ++ nl ++
  "        <selection>" ++ nl ++
  "          <selectionNumber>" ++ pick ++ "</selectionNumber>" ++ nl ++
  "        </selection>" ++ nl ++
  "        <rubricBlock" ++ attr "identifier" "points_per_item"
    ++ attr "view" "author" ++ ">" ++ nl ++
  "          <p>Points per item: " ++ points_per_item ++ "</p>" ++ nl ++
  "        </rubricBlock>" ++ nl.

Definition GROUP_END : string :=
  "      </assessmentSection>" ++ nl.

Definition TEXT (ident href : string) : string :=
  "      <assessmentItemRef" ++ attr "identifier" ident
    ++ attr "href" href ++ "/>" ++ nl.

Definition START_ITEM (question_identifier question_title : string) : string :=
  "      <assessmentItem" ++ attr "identifier" question_identifier
    ++ attr "title" question_title
    ++ attr "adaptive" "false" ++ attr "timeDependent" "false" ++ ">" ++ nl.

Definition END_ITEM : string :=
  "      </assessmentItem>" ++ nl.

Definition ITEM_METADATA
  (base_type cardinality response_declaration_body points_possible : string)
  : string :=
  "        <responseDeclaration" ++ attr "identifier" "RESPONSE"
    ++ attr "baseType" base_type
    ++ attr "cardinality" cardinality ++ ">" ++ nl ++
  response_declaration_body ++ nl ++
  "        </responseDeclaration>" ++ nl ++
  "        <outcomeDeclaration" ++ attr "identifier" "SCORE"
    ++ attr "baseType" "float" ++ attr "cardinality" "single" ++ ">" ++ nl ++
  "          <defaultValue>" ++ nl ++
  "            <value>0</value>" ++ nl ++
  "          </defaultValue>" ++ nl ++
  "        </outcomeDeclaration>" ++ nl ++
  "        <outcomeDeclaration" ++ attr "identifier" "MAXSCORE"
    ++ attr "baseType" "float" ++ attr "cardinality" "single" ++ ">" ++ nl ++
  "          <defaultValue>" ++ nl ++
  "            <value>" ++ points_possible ++ "</value>" ++ nl ++
  "          </defaultValue>" ++ nl ++
  "        </outcomeDeclaration>" ++ nl.

Definition ITEM_BODY_MCTF (question_html_xml shuffle choices : string)
  : string :=
  "        <itemBody>" ++ nl ++
  "          <p>" ++ question_html_xml ++ "</p>" ++ nl ++
  "          <choiceInteraction" ++ attr "responseIdentifier" "RESPONSE"
    ++ attr "shuffle" shuffle ++ attr "maxChoices" "1" ++ ">" ++ nl ++
  choices ++ nl ++
  "          </choiceInteraction>" ++ nl ++
  "        </itemBody>" ++ nl.

Definition ITEM_BODY_MULTANS
  (question_html_xml shuffle max_choices choices : string) : string :=
  "        <itemBody>" ++ nl ++
  "          <p>" ++ question_html_xml ++ "</p>" ++ nl ++
  "          <choiceInteraction" ++ attr "responseIdentifier" "RESPONSE"
    ++ attr "shuffle" shuffle ++ attr "maxChoices" max_choices ++ ">" ++ nl ++
  choices ++ nl ++
  "          </choiceInteraction>" ++ nl ++
  "        </itemBody>" ++ nl.

Definition ITEM_BODY_CHOICE (ident choice_html_xml : string) : string :=
  "            <simpleChoice" ++ attr "identifier" ident
    ++ attr "fixed" "false" ++ ">" ++ choice_html_xml
    ++ "</simpleChoice>" ++ nl.

Definition ITEM_BODY_SHORTANS (question_html_xml : string) : string :=
  "        <itemBody>" ++ nl ++
  "          <p>" ++ question_html_xml ++ "</p>" ++ nl ++
  "          <textEntryInteraction" ++ attr "responseIdentifier" "RESPONSE"
    ++ attr "expectedLength" "50" ++ "/>" ++ nl ++
  "        </itemBody>" ++ nl.

Definition ITEM_BODY_ESSAY (question_html_xml : string) : string :=
  "        <itemBody>" ++ nl ++
  "          <p>" ++ question_html_xml ++ "</p>" ++ nl ++
  "          <extendedTextInteraction" ++ attr "responseIdentifier" "RESPONSE"
    ++ attr "expectedLength" "1000" ++ "/>" ++ nl ++
  "        </itemBody>" ++ nl.

Definition ITEM_BODY_UPLOAD (question_html_xml : string) : string :=
  "        <itemBody>" ++ nl ++
  "          <p>" ++ question_html_xml ++ "</p>" ++ nl ++
  "          <uploadInteraction" ++ attr "responseIdentifier" "RESPONSE"
    ++ "/>" ++ nl ++
  "        </itemBody>" ++ nl.

Definition ITEM_BODY_NUM (question_html_xml : string) : string :=
  "        <itemBody>" ++ nl ++
  "          <p>" ++ question_html_xml ++ "</p>" ++ nl ++
  "          <textEntryInteraction" ++ attr "responseIdentifier" "RESPONSE"
    ++ attr "baseType" "float" ++ attr "expectedLength" "20" ++ "/>" ++ nl ++
  "        </itemBody>" ++ nl.

(** The four graded [RESPONSE_PROCESSING_*] templates differ in the test
    of their [responseIf] only.  The lines before the test and the lines
    after it are written once here; each template below is the source's
    text, line for line. *)
Definition RP_OPEN : string :=
  "        <responseProcessing>" ++ nl ++
  "          <responseCondition>" ++ nl ++
  "            <responseIf>" ++ nl.

Definition RP_AWARD
  (points_possible correct_feedback incorrect_feedback general_feedback
     : string) : string :=
  "              <setOutcomeValue" ++ attr "identifier" "SCORE" ++ ">" ++ nl ++
  "                <sum>" ++ nl ++
  "                  <variable" ++ attr "identifier" "SCORE" ++ "/>" ++ nl ++
  "                  <baseValue" ++ attr "baseType" "float" ++ ">"
    ++ points_possible ++ "</baseValue>" ++ nl ++
  "                </sum>" ++ nl ++
  "              </setOutcomeValue>" ++ nl ++
  correct_feedback ++ nl ++
  "            </responseIf>" ++ nl ++
  incorrect_feedback ++ nl ++
  general_feedback ++ nl ++
  "          </responseCondition>" ++ nl ++
  "        </responseProcessing>" ++ nl.

Definition RESPONSE_PROCESSING_MCTF
  (points_possible correct_feedback incorrect_feedback general_feedback
     : string) : string :=
  RP_OPEN ++
  "              <match>" ++ nl ++
  "                <variable" ++ attr "identifier" "RESPONSE" ++ "/>" ++ nl ++
  "                <correct" ++ attr "identifier" "RESPONSE" ++ "/>" ++ nl ++
  "              </match>" ++ nl ++
  RP_AWARD points_possible correct_feedback incorrect_feedback
    general_feedback.

Definition RESPONSE_PROCESSING_MULTANS
  (match_conditions points_possible correct_feedback incorrect_feedback
     general_feedback : string) : string :=
  RP_OPEN ++
  "              <and>" ++ nl ++
  match_conditions ++ nl ++
  "              </and>" ++ nl ++
  RP_AWARD points_possible correct_feedback incorrect_feedback
    general_feedback.

Definition RESPONSE_PROCESSING_SHORTANS
  (varequal_conditions points_possible correct_feedback incorrect_feedback
     general_feedback : string) : string :=
  RP_OPEN ++
  "              <or>" ++ nl ++
  varequal_conditions ++ nl ++
  "              </or>" ++ nl ++
  RP_AWARD points_possible correct_feedback incorrect_feedback
    general_feedback.

Definition RESPONSE_PROCESSING_NUM
  (num_min num_max points_possible correct_feedback incorrect_feedback
     general_feedback : string) : string :=
  RP_OPEN ++
  "              <and>" ++ nl ++
  "                <gte>" ++ nl ++
  "                  <variable" ++ attr "identifier" "RESPONSE" ++ "/>" ++ nl ++
  "                  <baseValue" ++ attr "baseType" "float" ++ ">"
    ++ num_min ++ "</baseValue>" ++ nl ++
  "                </gte>" ++ nl ++
  "                <lte>" ++ nl ++
  "                  <variable" ++ attr "identifier" "RESPONSE" ++ "/>" ++ nl ++
  "                  <baseValue" ++ attr "baseType" "float" ++ ">"
    ++ num_max ++ "</baseValue>" ++ nl ++
  "                </lte>" ++ nl ++
  "              </and>" ++ nl ++
  RP_AWARD points_possible correct_feedback incorrect_feedback
    general_feedback.

Definition RESPONSE_PROCESSING_ESSAY (general_feedback : string) : string :=
  RP_OPEN ++
  "              <isNull>" ++ nl ++
  "                <variable" ++ attr "identifier" "RESPONSE" ++ "/>" ++ nl ++
  "              </isNull>" ++ nl ++
  "              <setOutcomeValue" ++ attr "identifier" "SCORE" ++ ">" ++ nl ++
  "                <baseValue" ++ attr "baseType" "float" ++ ">0</baseValue>"
    ++ nl ++
  "              </setOutcomeValue>" ++ nl ++
  "            </responseIf>" ++ nl ++
  general_feedback ++ nl ++
  "          </responseCondition>" ++ nl ++
  "        </responseProcessing>" ++ nl.

Definition RESPONSE_PROCESSING_UPLOAD : string -> string :=
  RESPONSE_PROCESSING_ESSAY.

Definition MATCH_CONDITION (ident : string) : string :=
  "                <match>" ++ nl ++
  "                  <variable" ++ attr "identifier" "RESPONSE" ++ "/>" ++ nl ++
  "                  <baseValue" ++ attr "baseType" "identifier" ++ ">"
    ++ ident ++ "</baseValue>" ++ nl ++
  "                </match>" ++ nl.

Definition VARQUAL_CONDITION (answer_xml : string) : string :=
  "                <match>" ++ nl ++
  "                  <variable" ++ attr "identifier" "RESPONSE" ++ "/>" ++ nl ++
  "                  <baseValue" ++ attr "baseType" "string" ++ ">"
    ++ answer_xml ++ "</baseValue>" ++ nl ++
  "                </match>" ++ nl.

Definition FEEDBACK_CORRECT (feedback : string) : string :=
  "              <setOutcomeValue" ++ attr "identifier" "FEEDBACK" ++ ">" ++ nl ++
  "                <baseValue" ++ attr "baseType" "string" ++ ">"
    ++ feedback ++ "</baseValue>" ++ nl ++
  "              </setOutcomeValue>" ++ nl.

Definition FEEDBACK_INCORRECT (feedback : string) : string :=
  "            <responseElse>" ++ nl ++
  "              <setOutcomeValue" ++ attr "identifier" "FEEDBACK" ++ ">" ++ nl ++
  "                <baseValue" ++ attr "baseType" "string" ++ ">"
    ++ feedback ++ "</baseValue>" ++ nl ++
  "              </setOutcomeValue>" ++ nl ++
  "            </responseElse>" ++ nl.

Definition FEEDBACK_GENERAL (feedback : string) : string :=
  "            <responseElse>" ++ nl ++
  "              <setOutcomeValue" ++ attr "identifier" "FEEDBACK" ++ ">" ++ nl ++
  "                <baseValue" ++ attr "baseType" "string" ++ ">"
    ++ feedback ++ "</baseValue>" ++ nl ++
  "              </setOutcomeValue>" ++ nl ++
  "            </responseElse>" ++ nl.

Definition FEEDBACK_CHOICE (feedback : string) : string :=
  "              <setOutcomeValue" ++ attr "identifier" "FEEDBACK" ++ ">" ++ nl ++
  "                <baseValue" ++ attr "baseType" "string" ++ ">"
    ++ feedback ++ "</baseValue>" ++ nl ++
  "              </setOutcomeValue>" ++ nl.

(** ** The generator *)

(** The first loop of [assessment_v2]: the total for MAXSCORE. *)
Definition add_points (points_possible : Z) (x : entry) : Z :=
  match x with
  | IsQuestion question => points_possible + Question.points_possible question
  | IsGroupStart group =>
      points_possible + Group.points_per_question group * Group.pick group
  | _ => points_possible
  end.

Definition total_points (questions_and_delims : list entry) : Z :=
  fold_left add_points questions_and_delims 0.

(** The lines that the generator appends for a text region; none of them
    ends in a line feed. *)
Definition text_region_xml (region : TextRegion.t) : list string :=
  let item_id := "qtimaker_text_" ++ TextRegion.id region in
  [ "      <assessmentItem" ++ attr "identifier" item_id
      ++ attr "title" (TextRegion.title_xml region)
      ++ attr "adaptive" "false" ++ attr "timeDependent" "false" ++ ">";
    "        <itemBody>";
    "          <p>" ++ TextRegion.text_html_xml region ++ "</p>";
    "        </itemBody>";
    "        <outcomeDeclaration" ++ attr "identifier" "SCORE"
      ++ attr "baseType" "float" ++ attr "cardinality" "single" ++ ">";
    "          <defaultValue>";
    "            <value>0</value>";
    "          </defaultValue>";
    "        </outcomeDeclaration>";
    "        <responseProcessing>";
    "          <responseCondition/>";
    "        </responseProcessing>";
    "      </assessmentItem>" ].

(** The [correctResponse] line of a response declaration. *)
Definition correct_response_line (value : string) : string :=
  "            <correctResponse><value>" ++ value
    ++ "</value></correctResponse>".

(** "Response declaration based on question type":
    [(base_type, cardinality, response_declaration_body)]. *)
Definition response_declaration (question : Question.t)
  : string * string * string :=
  let type := Question.type question in
  if str_in type [true_false_question; multiple_choice_question;
                  multiple_answers_question]
  then
    let correct_responses :=
      map (fun choice => correct_response_line (Choice.id choice))
          (filter Choice.correct (Question.choices question)) in
    ("identifier",
     if String.eqb type multiple_answers_question then "multiple" else "single",
     match correct_responses with
     | [] => ""
     | _ => String.concat nl correct_responses
     end)
  else if String.eqb type short_answer_question then
    ("string", "single",
     String.concat nl
       (map (fun choice => correct_response_line (Choice.choice_xml choice))
            (Question.choices question)))
  else if String.eqb type numerical_question then
    ("float", "single",
     match Question.numerical_exact question with
     | Some _ =>
         correct_response_line (Question.numerical_exact_html_xml question)
     | None =>
         correct_response_line (Question.numerical_min_html_xml question)
     end)
  else
    ("string", "single", "").

(** The [simpleChoice] elements of a choice interaction. *)
Definition choices_xml (question : Question.t) : string :=
  String.concat nl
    (map (fun c => ITEM_BODY_CHOICE ("qtimaker_choice_" ++ Choice.id c)
                     (Choice.choice_html_xml c))
         (Question.choices question)).

(** "Item body". *)
Definition item_body (quiz : Quiz.t) (question : Question.t) : result string :=
  let type := Question.type question in
  let shuffle :=
    if String.eqb (Quiz.shuffle_answers_xml quiz) "true"
    then "true" else "false" in
  if str_in type [true_false_question; multiple_choice_question] then
    Ok (ITEM_BODY_MCTF (Question.question_html_xml question) shuffle
          (choices_xml question))
  else if String.eqb type multiple_answers_question then
    Ok (ITEM_BODY_MULTANS (Question.question_html_xml question) shuffle
          (str_of_len (Question.choices question)) (choices_xml question))
  else if String.eqb type short_answer_question then
    Ok (ITEM_BODY_SHORTANS (Question.question_html_xml question))
  else if String.eqb type numerical_question then
    Ok (ITEM_BODY_NUM (Question.question_html_xml question))
  else if String.eqb type essay_question then
    Ok (ITEM_BODY_ESSAY (Question.question_html_xml question))
  else if String.eqb type file_upload_question then
    Ok (ITEM_BODY_UPLOAD (Question.question_html_xml question))
  else Raise ValueError.

(** The three feedback strings, empty when the raw text is [None]. *)
Definition correct_feedback (question : Question.t) : string :=
  match Question.correct_feedback_raw question with
  | Some _ => FEEDBACK_CORRECT (Question.correct_feedback_html_xml question)
  | None => ""
  end.

Definition incorrect_feedback (question : Question.t) : string :=
  match Question.incorrect_feedback_raw question with
  | Some _ =>
      FEEDBACK_INCORRECT (Question.incorrect_feedback_html_xml question)
  | None => ""
  end.

Definition general_feedback (question : Question.t) : string :=
  match Question.feedback_raw question with
  | Some _ => FEEDBACK_GENERAL (Question.feedback_html_xml question)
  | None => ""
  end.

(** The identifiers that the match conditions of a multiple-answers
    question name. *)
Definition match_idents (question : Question.t) : list string :=
  map (fun choice => "qtimaker_choice_" ++ Choice.id choice)
      (filter Choice.correct (Question.choices question)).

(** "Response processing". *)
Definition response_processing (question : Question.t) : result string :=
  let type := Question.type question in
  let points_possible := str_of_Z (Question.points_possible question) in
  if str_in type [true_false_question; multiple_choice_question] then
    Ok (RESPONSE_PROCESSING_MCTF points_possible
          (correct_feedback question) (incorrect_feedback question)
          (general_feedback question))
  else if String.eqb type multiple_answers_question then
    let match_conditions := map MATCH_CONDITION (match_idents question) in
    Ok (RESPONSE_PROCESSING_MULTANS (String.concat nl match_conditions)
          points_possible
          (correct_feedback question) (incorrect_feedback question)
          (general_feedback question))
  else if String.eqb type short_answer_question then
    let varequal_conditions :=
      map (fun choice => VARQUAL_CONDITION (Choice.choice_xml choice))
          (Question.choices question) in
    Ok (RESPONSE_PROCESSING_SHORTANS (String.concat nl varequal_conditions)
          points_possible
          (correct_feedback question) (incorrect_feedback question)
          (general_feedback question))
  else if String.eqb type numerical_question then
    Ok (RESPONSE_PROCESSING_NUM
          (Question.numerical_min_html_xml question)
          (Question.numerical_max_html_xml question)
          points_possible
          (correct_feedback question) (incorrect_feedback question)
          (general_feedback question))
  else if String.eqb type essay_question then
    Ok (RESPONSE_PROCESSING_ESSAY (general_feedback question))
  else if String.eqb type file_upload_question then
    Ok (RESPONSE_PROCESSING_UPLOAD (general_feedback question))
  else Raise ValueError.

(** The part of the loop body that handles a [Question]: what it appends
    to [xml], or the exception that it raises. *)
Definition question_xml (quiz : Quiz.t) (question : Question.t)
  (xml : list string) : result (list string) :=
  let xml :=
    app xml [START_ITEM ("qtimaker_question_" ++ Question.id question)
               (Question.title_xml question)] in
  let '(base_type, cardinality, response_declaration_body) :=
    response_declaration question in
  let xml :=
    if str_in (Question.type question) [essay_question; file_upload_question]
    then xml
    else app xml [ITEM_METADATA base_type cardinality
                    response_declaration_body
                    (str_of_Z (Question.points_possible question))] in
  body <- item_body quiz question ;;
  let xml := app xml [body] in
  processing <- response_processing question ;;
  let xml := app xml [processing] in
  Ok (app xml [END_ITEM]).

(** One iteration of the second loop. *)
Definition entry_xml (quiz : Quiz.t) (question_or_delim : entry)
  (xml : list string) : result (list string) :=
  match question_or_delim with
  | IsTextRegion region => Ok (app xml (text_region_xml region))
  | IsGroupStart group =>
      Ok (app xml [GROUP_START ("qtimaker_group_" ++ Group.id group)
                     (Group.title_xml group)
                     (str_of_Z (Group.pick group))
                     (str_of_Z (Group.points_per_question group))])
  | IsGroupEnd => Ok (app xml [GROUP_END])
  | Other => Raise TypeError
  | IsQuestion question => question_xml quiz question xml
  end.

Fixpoint entries_xml (quiz : Quiz.t) (entries : list entry)
  (xml : list string) : result (list string) :=
  match entries with
  | [] => Ok xml
  | question_or_delim :: rest =>
      xml' <- entry_xml quiz question_or_delim xml ;;
      entries_xml quiz rest xml'
  end.

Definition assessment_v2 (quiz : Quiz.t)
  (assessment_identifier title_xml : string) : result string :=
  let xml := [BEFORE_ITEMS assessment_identifier title_xml] in
  let points_possible := total_points (Quiz.questions_and_delims quiz) in
  xml <- entries_xml quiz (Quiz.questions_and_delims quiz) xml ;;
  let xml := app xml [AFTER_ITEMS (str_of_Z points_possible)] in
  Ok (String.concat "" xml).

(** ** A reading of the emitted item

    What a delivery engine does with the response processing of an item is
    not code of this repository.  The reading below follows the table of the
    specification (4.3): it names the test of the [responseIf], the points
    that the [setOutcomeValue] adds to SCORE and the three feedback
    assignments, and [render] writes a reading back with the templates
    above, so that the generator's text can be compared with it. *)

Inductive test : Type :=
| MatchCorrect                        (* RESPONSE against the declared correct response *)
| AllMatch (idents : list string)     (* and: one MATCH_CONDITION per identifier *)
| AnyEqual (answers : list string)    (* or: one VARQUAL_CONDITION per answer *)
| InRange (num_min num_max : string). (* and: gte num_min, lte num_max *)

Inductive processing : Type :=
| Graded (t : test) (points : Z) (correct incorrect general : option string)
| NullCheck (general : option string).

Definition render_feedback (template : string -> string)
  (feedback : option string) : string :=
  match feedback with
  | Some text => template text
  | None => ""
  end.

Definition render (p : processing) : string :=
  match p with
  | Graded t points correct incorrect general =>
      let points := str_of_Z points in
      let correct := render_feedback FEEDBACK_CORRECT correct in
      let incorrect := render_feedback FEEDBACK_INCORRECT incorrect in
      let general := render_feedback FEEDBACK_GENERAL general in
      match t with
      | MatchCorrect =>
          RESPONSE_PROCESSING_MCTF points correct incorrect general
      | AllMatch idents =>
          RESPONSE_PROCESSING_MULTANS
            (String.concat nl (map MATCH_CONDITION idents))
            points correct incorrect general
      | AnyEqual answers =>
          RESPONSE_PROCESSING_SHORTANS
            (String.concat nl (map VARQUAL_CONDITION answers))
            points correct incorrect general
      | InRange num_min num_max =>
          RESPONSE_PROCESSING_NUM num_min num_max
            points correct incorrect general
      end
  | NullCheck general =>
      RESPONSE_PROCESSING_ESSAY (render_feedback FEEDBACK_GENERAL general)
  end.

(** A feedback channel is present when its raw text is not [None]; what is
    written is the escaped text. *)
Definition feedback_of (raw : option string) (html_xml : string)
  : option string :=
  match raw with
  | Some _ => Some html_xml
  | None => None
  end.

(** The reading of a graded response processing with test [t]. *)
Definition graded_reading (question : Question.t) (t : test) : processing :=
  Graded t (Question.points_possible question)
    (feedback_of (Question.correct_feedback_raw question)
       (Question.correct_feedback_html_xml question))
    (feedback_of (Question.incorrect_feedback_raw question)
       (Question.incorrect_feedback_html_xml question))
    (feedback_of (Question.feedback_raw question)
       (Question.feedback_html_xml question)).

(** The reading of the response processing of a question; [None] for a
    type without one. *)
Definition reading (question : Question.t) : option processing :=
  let type := Question.type question in
  if str_in type [true_false_question; multiple_choice_question] then
    Some (graded_reading question MatchCorrect)
  else if String.eqb type multiple_answers_question then
    Some (graded_reading question (AllMatch (match_idents question)))
  else if String.eqb type short_answer_question then
    Some (graded_reading question
            (AnyEqual (map Choice.choice_xml (Question.choices question))))
  else if String.eqb type numerical_question then
    Some (graded_reading question
            (InRange (Question.numerical_min_html_xml question)
                     (Question.numerical_max_html_xml question)))
  else if str_in type [essay_question; file_upload_question] then
    Some (NullCheck (feedback_of (Question.feedback_raw question)
                       (Question.feedback_html_xml question)))
  else None.

(** The values that the response declaration of a choice question lists as
    correct, and the identifiers that its item body gives to the choices. *)
Definition declared_correct (question : Question.t) : list string :=
  map Choice.id (filter Choice.correct (Question.choices question)).

Definition body_ident (choice : Choice.t) : string :=
  "qtimaker_choice_" ++ Choice.id choice.

(** A submitted response, and the outcome variables of an item. *)
Inductive response : Type :=
| NoResponse
| Identifier (ident : string)
| Identifiers (idents : list string)
| Text (text : string)
| Number (x : Q).

Record outcomes : Type := mk_outcomes {
  SCORE : Z;
  FEEDBACK : option string
}.

Definition set_feedback (feedback : option string) (o : outcomes) : outcomes :=
  match feedback with
  | Some text => mk_outcomes (SCORE o) (Some text)
  | None => o
  end.

Section Delivery.

(** How the engine reads a float literal, and the correct values that the
    item's response declaration lists. *)
Variable float_of : string -> Q.
Variable declared : list string.

(** [match] of RESPONSE against one identifier: the identifier is the
    response, or is among the identifiers of a multiple response. *)
Definition selects (r : response) (ident : string) : bool :=
  match r with
  | Identifier i => String.eqb i ident
  | Identifiers l => existsb (String.eqb ident) l
  | _ => false
  end.

Definition holds (t : test) (r : response) : bool :=
  match t with
  | MatchCorrect =>
      match r, declared with
      | Identifier i, [value] => String.eqb i value
      | _, _ => false
      end
  | AllMatch idents => forallb (selects r) idents
  | AnyEqual answers =>
      match r with
      | Text s => existsb (String.eqb s) answers
      | _ => false
      end
  | InRange num_min num_max =>
      match r with
      | Number x =>
          Qle_bool (float_of num_min) x && Qle_bool x (float_of num_max)
      | _ => false
      end
  end.

(** A [responseIf] that holds adds the points and assigns the correct
    feedback; otherwise each [responseElse] that is present assigns its
    feedback, in document order. *)
Definition run (p : processing) (r : response) (o : outcomes) : outcomes :=
  match p with
  | Graded t points correct incorrect general =>
      if holds t r
      then set_feedback correct (mk_outcomes (SCORE o + points) (FEEDBACK o))
      else set_feedback general (set_feedback incorrect o)
  | NullCheck general =>
      match r with
      | NoResponse => mk_outcomes 0 (FEEDBACK o)
      | _ => set_feedback general o
      end
  end.

End Delivery.

(** ** The total of the specification

    "Total possible score = sum of points_possible over standalone Questions
    + sum of points_per_question x pick over each Group", a question being
    standalone when no GroupStart is open at its place. *)

Fixpoint standalone_points (in_group : bool) (entries : list entry) : Z :=
  match entries with
  | [] => 0
  | IsQuestion question :: rest =>
      (if in_group then 0 else Question.points_possible question)
      + standalone_points in_group rest
  | IsGroupStart _ :: rest => standalone_points true rest
  | IsGroupEnd :: rest => standalone_points false rest
  | _ :: rest => standalone_points in_group rest
  end.

Fixpoint group_points (entries : list entry) : Z :=
  match entries with
  | [] => 0
  | IsGroupStart group :: rest =>
      Group.points_per_question group * Group.pick group + group_points rest
  | _ :: rest => group_points rest
  end.

Definition spec_max_score (entries : list entry) : Z :=
  standalone_points false entries + group_points entries.

(** The points of the questions that a group encloses. *)
Fixpoint enclosed_points (in_group : bool) (entries : list entry) : Z :=
  match entries with
  | [] => 0
  | IsQuestion question :: rest =>
      (if in_group then Question.points_possible question else 0)
      + enclosed_points in_group rest
  | IsGroupStart _ :: rest => enclosed_points true rest
  | IsGroupEnd :: rest => enclosed_points false rest
  | _ :: rest => enclosed_points in_group rest
  end.

(** [out] ends with the closing lines of the assessment, carrying [n] as
    the default of MAXSCORE. *)
Definition emits_max_score (out : string) (n : Z) : Prop :=
  exists items, out = items ++ AFTER_ITEMS (str_of_Z n).

(** [s.endswith(suffix)]. *)
Definition ends_with (s suffix : string) : bool :=
  String.eqb
    (substring (String.length s - String.length suffix)
               (String.length suffix) s)
    suffix.


(** The question types of the per-type encoding table. *)
Definition covered (type : string) : bool :=
  str_in type [true_false_question; multiple_choice_question;
               multiple_answers_question; short_answer_question;
               numerical_question; essay_question; file_upload_question].

(** ** Element names

    The names of the elements that a piece of XML opens, in document order:
    what follows a [<] up to the first blank, [>] or [/]; a closing tag
    opens nothing. *)

Definition scan_state : Type := (option string * list string)%type.

Definition scan_char (st : scan_state) (c : ascii) : scan_state :=
  let '(name, names) := st in
  match name with
  | None => if Ascii.eqb c "<" then (Some "", names) else (None, names)
  | Some n =>
      if Ascii.eqb c "/" && String.eqb n "" then (None, names)
      else if Ascii.eqb c " " || Ascii.eqb c ">" || Ascii.eqb c "/"
           then (None, app names [n])
           else (Some (n ++ String c ""), names)
  end.

Fixpoint scan (st : scan_state) (s : string) : scan_state :=
  match s with
  | EmptyString => st
  | String c s' => scan (scan_char st c) s'
  end.

Definition elements (s : string) : list string := snd (scan (None, []) s).

(** Escaped text holds no [<]. *)
Fixpoint plain (s : string) : bool :=
  match s with
  | EmptyString => true
  | String c s' => negb (Ascii.eqb c "<") && plain s'
  end.

(** ** Feedback *)




(** [question] with other correct and incorrect feedback. *)
Definition with_feedback (question : Question.t)
  (correct_raw : option string) (correct_html_xml : string)
  (incorrect_raw : option string) (incorrect_html_xml : string)
  : Question.t :=
  Question.mk
    (Question.id question) (Question.title_xml question)
    (Question.type question) (Question.question_html_xml question)
    (Question.points_possible question) (Question.choices question)
    (Question.numerical_exact question)
    (Question.numerical_exact_html_xml question)
    (Question.numerical_min_html_xml question)
    (Question.numerical_max_html_xml question)
    correct_raw correct_html_xml incorrect_raw incorrect_html_xml
    (Question.feedback_raw question) (Question.feedback_html_xml question).
(** ** Inputs used below *)

(** A pool of five one-point questions from which three are drawn at two
    points each. *)
Definition plain_question (id type : string) (points : Z)
  (choices : list Choice.t) : Question.t :=
  Question.mk id "Question" type "Text" points choices
    None "" "" "" None "" None "" None "".

Definition yes : Choice.t := Choice.mk "y" true "True" "True".
Definition no : Choice.t := Choice.mk "n" false "False" "False".

Definition pool_question (id : string) : entry :=
  IsQuestion (plain_question id true_false_question 1 [yes; no]).

Definition pool : Group.t := Group.mk "g" "Pool" 3 2.

Definition pool_quiz : Quiz.t :=
  Quiz.mk [ IsGroupStart pool;
            pool_question "1"; pool_question "2"; pool_question "3";
            pool_question "4"; pool_question "5";
            IsGroupEnd ]
          "false".


Definition notice : TextRegion.t :=
  TextRegion.mk "r1" "Instructions" "Answer every question.".

(** A question of a type that the table does not list. *)
Definition matching : Question.t :=
  plain_question "m" "matching_question" 1 [].

Definition matching_quiz : Quiz.t :=
  Quiz.mk [pool_question "1"; IsQuestion matching; IsTextRegion notice]
          "true".

(** Four choices, of which the first is the correct one. *)
Definition choice_a : Choice.t := Choice.mk "a" true "Paris" "Paris".
Definition choice_b : Choice.t := Choice.mk "b" false "Rome" "Rome".
Definition choice_c : Choice.t := Choice.mk "c" false "Oslo" "Oslo".
Definition choice_d : Choice.t := Choice.mk "d" false "Bern" "Bern".

Definition capital : Question.t :=
  plain_question "q1" multiple_choice_question 2
    [choice_a; choice_b; choice_c; choice_d].

Definition capital_quiz : Quiz.t := Quiz.mk [IsQuestion capital] "false".




(** The reading of the two literals of [between]. *)
Definition read_2_4 (literal : string) : Q :=
  if String.eqb literal "2" then 2%Q else 4%Q.

(** Questions with every feedback string set. *)
Definition all_feedback (id type : string) : Question.t :=
  Question.mk id "Question" type "Text" 1 [yes; no]
    None "" "" "" (Some "Right") "Right" (Some "Wrong") "Wrong"
    (Some "Read chapter 2") "Read chapter 2".

Definition essay : Question.t := all_feedback "q4" essay_question.

(** ** The second loop, entry by entry *)

(** The entries that an iteration of the second loop handles without
    raising, and the exception of the others. *)
Definition generates (x : entry) : bool :=
  match x with
  | Other => false
  | IsQuestion question => covered (Question.type question)
  | _ => true
  end.

Definition raised_by (x : entry) : exn :=
  match x with
  | Other => TypeError
  | _ => ValueError
  end.



Definition stray_quiz : Quiz.t :=
  Quiz.mk [pool_question "1"; Other; IsQuestion matching] "false".

(** ** Identifiers *)

(** The identifier that the generator writes on the element of an entry
    (the [item_id] of a text region, the [ident] of a group, the
    [question_identifier] of a question), and the kind and model id that
    it is made from. *)
Definition entry_ident (x : entry) : option string :=
  match x with
  | IsQuestion question => Some ("qtimaker_question_" ++ Question.id question)
  | IsGroupStart group => Some ("qtimaker_group_" ++ Group.id group)
  | IsTextRegion region => Some ("qtimaker_text_" ++ TextRegion.id region)
  | _ => None
  end.

Inductive kind : Type := AQuestion | AGroup | ARegion.

Definition entry_key (x : entry) : option (kind * string) :=
  match x with
  | IsQuestion question => Some (AQuestion, Question.id question)
  | IsGroupStart group => Some (AGroup, Group.id group)
  | IsTextRegion region => Some (ARegion, TextRegion.id region)
  | _ => None
  end.


Definition capital_quiz_True : Quiz.t := Quiz.mk [IsQuestion capital] "True".

Definition same_id_entries : list entry :=
  [ IsQuestion (plain_question "1" essay_question 1 []);
    IsGroupStart (Group.mk "1" "Pool" 1 1);
    IsTextRegion (TextRegion.mk "1" "Note" "Text") ].

(** * The quiz route ([web/routes/quiz_generation.py])

    [generate_quiz] writes the quiz markup for the questions of a request
    and hands it to the parser.  The markup is built by appending to
    [quiz_text]; the [print] calls write to the console only and are left
    out, as are the parser and the packaging, which [quiz.py] and [qti.py]
    define. *)

Module QuizGeneration.

(** The two pydantic models of the route. *)
Record Question : Type := mk_question {
  id : string;
  type : string;
  text : string;
  choices : option (list string);
  correct_answer : option Z;
  explanation : option string
}.

Record QuizGenerationRequest : Type := mk_request {
  title : string;
  description : option string;
  questions : list Question;
  qti_version : string;
  shuffle_answers : bool;
  show_correct_answers : bool
}.

(** What the route answers: a value, or [raise HTTPException(...)]. *)
Inductive http (A : Type) : Type :=
| Returns (a : A)
| HTTPException (status_code : Z) (detail : string).
Arguments Returns {A} a.
Arguments HTTPException {A} status_code detail.

Section Markup.

(** Python's [chr], from a code point to the string of that character. *)
Variable chr : nat -> string.

(** [i == question.correct_answer], for an index [i] of [enumerate]. *)
Definition is_correct (i : nat) (correct_answer : option Z) : bool :=
  match correct_answer with
  | Some c => Z.eqb (Z.of_nat i) c
  | None => false
  end.

(** The loop over [enumerate(question.choices)], from index [i] on. *)
Fixpoint add_choices (quiz_text : string) (i : nat) (choices : list string)
  (correct_answer : option Z) : string :=
  match choices with
  | [] => quiz_text
  | choice :: rest =>
      let prefix := if is_correct i correct_answer then "*" else "" in
      let letter := chr (97 + i) in
      add_choices (quiz_text ++ (prefix ++ letter ++ ") " ++ choice ++ nl))
        (S i) rest correct_answer
  end.

(** [question.explanation or 'answer']. *)
Definition explanation_or_answer (explanation : option string) : string :=
  match explanation with
  | Some (String c s) => String c s
  | _ => "answer"
  end.

(** The body of the loop over the questions. *)
Definition add_question (quiz_text : string) (idx : nat)
  (question : Question) : string :=
  let q_type := type question in
  let q_text := text question in
  let number := str_of_Z (Z.of_nat idx) in
  let quiz_text :=
    quiz_text ++ ("Title: Question " ++ number ++ " (ID: " ++ id question
                  ++ ")" ++ nl) in
  let quiz_text :=
    if str_in q_type ["multiple_choice"; "true_false"] then
      let quiz_text := quiz_text ++ (number ++ ". " ++ q_text ++ nl) in
      match choices question with
      | Some (choice :: rest) =>
          add_choices quiz_text 0 (choice :: rest) (correct_answer question)
      | _ => quiz_text
      end
    else if String.eqb q_type "short_answer" then
      let quiz_text := quiz_text ++ (number ++ ". " ++ q_text ++ nl) in
      quiz_text ++ ("*   " ++ explanation_or_answer (explanation question)
                    ++ nl)
    else if String.eqb q_type "essay" then
      let quiz_text := quiz_text ++ (number ++ ". " ++ q_text ++ nl) in
      quiz_text ++ ("____" ++ nl)
    else quiz_text in
  quiz_text ++ nl.

(** [for idx, question in enumerate(request.questions, start=idx)]. *)
Fixpoint add_questions (quiz_text : string) (idx : nat)
  (questions : list Question) : string :=
  match questions with
  | [] => quiz_text
  | question :: rest =>
      add_questions (add_question quiz_text idx question) (S idx) rest
  end.

(** The lines before the questions. *)
Definition header (request : QuizGenerationRequest) : string :=
  let quiz_text := "Quiz title: " ++ title request ++ nl in
  let quiz_text :=
    match description request with
    | Some (String c s) =>
        quiz_text ++ ("Quiz description: " ++ String c s ++ nl)
    | _ => quiz_text
    end in
  let quiz_text :=
    if shuffle_answers request
    then quiz_text ++ ("Shuffle answers: true" ++ nl)
    else quiz_text ++ ("Shuffle answers: false" ++ nl) in
  let quiz_text :=
    if negb (show_correct_answers request)
    then quiz_text ++ ("Show correct answers: false" ++ nl)
    else quiz_text in
  quiz_text ++ nl.

(** [generate_quiz] up to the call of the parser: the markup and the
    version that it passes on, or the refusal of a request without
    questions. *)
Definition quiz_markup (request : QuizGenerationRequest)
  : http (string * string) :=
  let qti_version := "1.2" in
  match questions request with
  | [] => HTTPException 400 "No questions provided"
  | _ =>
      Returns (add_questions (header request) 1 (questions request),
               qti_version)
  end.

(** What one question adds to the markup, and a choice line. *)
Definition block (idx : nat) (question : Question) : string :=
  add_question "" idx question.

End Markup.

(** [question] with another [correct_answer]. *)
Definition with_correct_answer (question : Question)
  (correct_answer : option Z) : Question :=
  mk_question (id question) (type question) (text question)
    (choices question) correct_answer (explanation question).

End QuizGeneration.

(** [chr] on the code points below 256. *)
Definition chr_latin1 (n : nat) : string := String (ascii_of_nat n) "".

(** Four choices with their answer given as 4, one past the last index. *)
Definition web_question : QuizGeneration.Question :=
  QuizGeneration.mk_question "q1" "multiple_choice" "Capital of France?"
    (Some ["Paris"; "Rome"; "Oslo"; "Bern"]) (Some 4) None.

Definition web_essay : QuizGeneration.Question :=
  QuizGeneration.mk_question "q2" "essay" "Describe Paris." None None None.

Definition web_request : QuizGeneration.QuizGenerationRequest :=
  QuizGeneration.mk_request "Capitals" None [web_question; web_essay]
    "2.1" false true.

(** * Chunking ([web/routes/questions.py], [web/routes/questions_docling.py])

    The two routes that generate questions cut the text of a document into
    chunks at blank lines.  A character is a code point below 256. *)

(** [c.isspace()]. *)
Definition isspace (c : ascii) : bool :=
  let n := nat_of_ascii c in
  ((9 <=? n) && (n <=? 13) || (28 <=? n) && (n <=? 32)
   || (n =? 133) || (n =? 160))%nat.

(** [s.lstrip()], [s.rstrip()] and [s.strip()]. *)
Fixpoint lstrip (s : string) : string :=
  match s with
  | EmptyString => EmptyString
  | String c s' => if isspace c then lstrip s' else s
  end.

Fixpoint rstrip (s : string) : string :=
  match s with
  | EmptyString => EmptyString
  | String c s' =>
      match rstrip s' with
      | EmptyString => if isspace c then EmptyString else String c EmptyString
      | r => String c r
      end
  end.

Definition strip (s : string) : string := rstrip (lstrip s).

(** The truth value of a string. *)
Definition nonempty (s : string) : bool :=
  match s with
  | EmptyString => false
  | String _ _ => true
  end.

(** [text.split('\n\n')]: [current] is the part of the piece at hand that
    has been read. *)
Fixpoint split_after (current text : string) : list string :=
  match text with
  | EmptyString => [current]
  | String a rest =>
      match rest with
      | String b rest' =>
          if Ascii.eqb a "010" && Ascii.eqb b "010"
          then current :: split_after "" rest'
          else split_after (current ++ String a "") rest
      | EmptyString => [current ++ String a ""]
      end
  end.

Definition split_blank_lines (text : string) : list string :=
  split_after "" text.

(** [len(s)] as a Python integer. *)
Definition len (s : string) : Z := Z.of_nat (String.length s).

(** [chunks.append(current.strip())] under [if current:]. *)
Definition flush (chunks : list string) (current : string) : list string :=
  if nonempty current then (chunks ++ [strip current])%list else chunks.

(** [split_into_chunks] of [questions_docling.py]: the body of its loop,
    on the pair of [chunks] and [current_chunk], and the function. *)
Definition add_paragraph (chunk_size : Z) (state : list string * string)
  (para : string) : list string * string :=
  let '(chunks, current_chunk) := state in
  if len current_chunk + len para <? chunk_size
  then (chunks, current_chunk ++ (para ++ nl ++ nl))
  else (flush chunks current_chunk, para ++ nl ++ nl).

Definition split_into_chunks (text : string) (chunk_size : Z) : list string :=
  let paragraphs := split_blank_lines text in
  let '(chunks, current_chunk) :=
    fold_left (add_paragraph chunk_size) paragraphs ([], "") in
  flush chunks current_chunk.





(** Three paragraphs, the second one long. *)
Definition three_paragraphs : string :=
  "One." ++ nl ++ nl ++ "  A second paragraph, longer than the rest. "
  ++ nl ++ nl ++ "Three.".



(** * Overlapping chunks ([web/services/docling_service.py])

    [DoclingService._chunk_text] cuts a text into windows of [chunk_size]
    characters that overlap by [overlap], moving the end of a window to a
    sentence end when one is near.  Its [while] loop is run with fuel:
    [None] is a loop that has not ended when the fuel is spent. *)

(** The dictionaries of the result; the one of a text that is returned
    whole has no [start] and no [end]. *)
Module Chunk.
Record t : Type := mk {
  content : string;
  index : Z;
  start : option Z;
  end_ : option Z;
  length : Z
}.
End Chunk.

(** [text[a:b]]: a negative index counts from the end, and both indices
    are brought into the text. *)
Definition adjust_index (n i : Z) : Z :=
  let i := if i <? 0 then i + n else i in
  if i <? 0 then 0 else if n <? i then n else i.

Definition slice (text : string) (a b : Z) : string :=
  let a := adjust_index (len text) a in
  let b := adjust_index (len text) b in
  substring (Z.to_nat a) (Z.to_nat (b - a)) text.

(** [[m.start() for m in re.finditer(r'[.!?]\s+', s)]], counted from [i]:
    a match begins at every [.], [!] or [?] that a blank follows, since a
    match covers that character and blanks only. *)
Definition is_sentence_end (c : ascii) : bool :=
  Ascii.eqb c "." || Ascii.eqb c "!" || Ascii.eqb c "?".

Fixpoint sentence_starts (i : Z) (s : string) : list Z :=
  match s with
  | EmptyString => []
  | String a rest =>
      match rest with
      | String b _ =>
          if is_sentence_end a && isspace b
          then i :: sentence_starts (i + 1) rest
          else sentence_starts (i + 1) rest
      | EmptyString => []
      end
  end.

(** [min(best :: candidates, key=lambda x: abs(x - target))]: the first of
    the nearest. *)
Fixpoint closest (target best : Z) (candidates : list Z) : Z :=
  match candidates with
  | [] => best
  | x :: rest =>
      if Z.abs (x - target) <? Z.abs (best - target)
      then closest target x rest
      else closest target best rest
  end.

(** The end of the window that begins at [start]. *)
Definition window_end (text : string) (chunk_size start : Z) : Z :=
  let end_ := start + chunk_size in
  if end_ <? len text then
    let boundary_search := slice text (end_ - 100) (end_ + 100) in
    let sentence_ends :=
      map (fun m => m + end_ - 100) (sentence_starts 0 boundary_search) in
    match sentence_ends with
    | [] => end_
    | first :: others => closest end_ first others
    end
  else end_.

(** The [while] loop. *)
Fixpoint chunk_loop (fuel : nat) (text : string) (chunk_size overlap : Z)
  (chunks : list Chunk.t) (start index : Z) : option (list Chunk.t) :=
  if start <? len text then
    match fuel with
    | O => None
    | S fuel =>
        let end_ := window_end text chunk_size start in
        let chunk_text := strip (slice text start end_) in
        let '(chunks, index) :=
          if nonempty chunk_text
          then ((chunks
                 ++ [Chunk.mk chunk_text index (Some start) (Some end_)
                       (len chunk_text)])%list,
                index + 1)
          else (chunks, index) in
        let start := if end_ <? len text then end_ - overlap else end_ in
        chunk_loop fuel text chunk_size overlap chunks start index
    end
  else Some chunks.

Definition _chunk_text (fuel : nat) (text : string) (chunk_size overlap : Z)
  : option (list Chunk.t) :=
  if negb (nonempty text) || (len text <? chunk_size)
  then Some [Chunk.mk text 0 None None (len text)]
  else chunk_loop fuel text chunk_size overlap [] 0 0.

(** A chunk of the loop: its content is the window between its [start]
    and its [end], stripped, and is not empty. *)
Definition chunk_of_window (text : string) (chunk : Chunk.t) : Prop :=
  exists start end_,
    Chunk.start chunk = Some start
    /\ Chunk.end_ chunk = Some end_
    /\ Chunk.content chunk = strip (slice text start end_)
    /\ Chunk.content chunk <> ""
    /\ Chunk.length chunk = len (Chunk.content chunk).

(** No character of [s] ends a sentence. *)
Fixpoint sentence_free (s : string) : bool :=
  match s with
  | EmptyString => true
  | String c s' => negb (is_sentence_end c) && sentence_free s'
  end.

Definition no_sentence : string := "abcdefghij".

(** Twenty sentences, 200 characters. *)
Definition twenty_sentences : string :=
  String.concat "" (repeat "It rains. It pours. " 10).
(** ** Strings and lists *)

Lemma append_nil_r (s : string) : s ++ "" = s.
Proof. induction s as [|c s IH]; simpl; [reflexivity | now rewrite IH]. Qed.

Lemma append_assoc (s1 s2 s3 : string) : (s1 ++ s2) ++ s3 = s1 ++ s2 ++ s3.
Proof. induction s1 as [|c s1 IH]; simpl; [reflexivity | now rewrite IH]. Qed.

Lemma length_append (s1 s2 : string) :
  String.length (s1 ++ s2) = (String.length s1 + String.length s2)%nat.
Proof. induction s1 as [|c s1 IH]; simpl; [reflexivity | now rewrite IH]. Qed.

Lemma concat_cons (s : string) (l : list string) :
  String.concat "" (s :: l) = s ++ String.concat "" l.
Proof. destruct l; simpl; [now rewrite append_nil_r | reflexivity]. Qed.

Lemma concat_app (l1 l2 : list string) :
  String.concat "" (l1 ++ l2)%list
  = String.concat "" l1 ++ String.concat "" l2.
Proof.
  induction l1 as [|s l1 IH].
  - reflexivity.
  - change ((s :: l1) ++ l2)%list with (s :: (l1 ++ l2)%list).
    now rewrite !concat_cons, IH, append_assoc.
Qed.

Lemma substring_skip (s1 s2 : string) (n : nat) :
  substring (String.length s1 + n) (String.length s2) (s1 ++ s2)
  = substring n (String.length s2) s2.
Proof. induction s1 as [|c s1 IH]; simpl; [reflexivity | exact IH]. Qed.

Lemma substring_all (s : string) : substring 0 (String.length s) s = s.
Proof. induction s as [|c s IH]; simpl; [reflexivity | now rewrite IH]. Qed.

Lemma ends_with_append (s suffix : string) :
  ends_with (s ++ suffix) suffix = true.
Proof.
  unfold ends_with. rewrite length_append.
  replace (String.length s + String.length suffix - String.length suffix)%nat
    with (String.length s + 0)%nat by lia.
  rewrite substring_skip, substring_all. apply String.eqb_refl.
Qed.

(** ** The two loops *)

Lemma fold_add_points (entries : list entry) :
  forall (acc : Z) (in_group : bool),
    fold_left add_points entries acc
    = acc + (standalone_points in_group entries + group_points entries
             + enclosed_points in_group entries).
Proof.
  induction entries as [|x entries IH]; intros acc in_group; simpl.
  - lia.
  - destruct x as [question|group| |region| ]; simpl.
    + rewrite (IH _ in_group). destruct in_group; lia.
    + rewrite (IH _ true). lia.
    + rewrite (IH _ false). lia.
    + rewrite (IH _ in_group). lia.
    + rewrite (IH _ in_group). lia.
Qed.

Lemma total_points_split (entries : list entry) :
  total_points entries
  = spec_max_score entries + enclosed_points false entries.
Proof.
  unfold total_points, spec_max_score.
  rewrite (fold_add_points entries 0 false). lia.
Qed.

Lemma assessment_v2_ok (quiz : Quiz.t) (aid title out : string) :
  assessment_v2 quiz aid title = Ok out ->
  exists xml,
    entries_xml quiz (Quiz.questions_and_delims quiz)
      [BEFORE_ITEMS aid title] = Ok xml
    /\ out = String.concat "" xml
             ++ AFTER_ITEMS
                  (str_of_Z (total_points (Quiz.questions_and_delims quiz))).
Proof.
  unfold assessment_v2. intros H.
  destruct (entries_xml quiz _ _) as [xml|e]; simpl in H; [|discriminate].
  exists xml. split; [reflexivity|].
  injection H as <-. rewrite concat_app. simpl. reflexivity.
Qed.

Lemma emitted_max_score (quiz : Quiz.t) (aid title out : string) :
  assessment_v2 quiz aid title = Ok out ->
  emits_max_score out
    (spec_max_score (Quiz.questions_and_delims quiz)
     + enclosed_points false (Quiz.questions_and_delims quiz)).
Proof.
  intros H.
  destruct (assessment_v2_ok _ _ _ _ H) as (xml & _ & ->).
  exists (String.concat "" xml). now rewrite total_points_split.
Qed.

(** C1.  For the pool of five one-point questions from which three are
    drawn at two points each, the sum of the specification is 6, and the
    generator writes 11 for the default of MAXSCORE: the first loop adds
    the points of the five enclosed questions to the 6 of the group. *)
Theorem pool_max_score_counts_enclosed_questions :
  exists out,
    assessment_v2 pool_quiz "pool" "Pool" = Ok out
    /\ spec_max_score (Quiz.questions_and_delims pool_quiz) = 6
    /\ enclosed_points false (Quiz.questions_and_delims pool_quiz) = 5
    /\ emits_max_score out 11
    /\ ~ emits_max_score out
          (spec_max_score (Quiz.questions_and_delims pool_quiz)).
Proof.
  destruct (assessment_v2 pool_quiz "pool" "Pool") as [out|e] eqn:E;
    [|vm_compute in E; discriminate].
  exists out. split; [reflexivity|]. split; [reflexivity|].
  split; [reflexivity|]. split.
  - exact (emitted_max_score pool_quiz "pool" "Pool" out E).
  - intros (items & Hout).
    assert (Hend : ends_with out (AFTER_ITEMS (str_of_Z 6)) = true)
      by (rewrite Hout; apply ends_with_append).
    vm_compute in E. injection E as <-.
    vm_compute in Hend. discriminate.
Qed.

Lemma entries_xml_app (quiz : Quiz.t) (l1 l2 : list entry) :
  forall xml,
    entries_xml quiz (l1 ++ l2)%list xml
    = (xml' <- entries_xml quiz l1 xml ;; entries_xml quiz l2 xml').
Proof.
  induction l1 as [|x l1 IH]; intros xml; simpl.
  - reflexivity.
  - destruct (entry_xml quiz x xml) as [xml'|e]; simpl; [apply IH | reflexivity].
Qed.

Lemma total_points_app (l1 l2 : list entry) :
  total_points (l1 ++ l2)%list
  = fold_left add_points l2 (total_points l1).
Proof. unfold total_points. apply fold_left_app. Qed.

(** ** Types outside the table *)

Ltac split_types H :=
  unfold covered, str_in in H; cbn [existsb] in H;
  repeat (apply orb_false_iff in H;
          let H1 := fresh "Htype" in destruct H as [H1 H]).

Lemma item_body_uncovered (quiz : Quiz.t) (question : Question.t) :
  covered (Question.type question) = false ->
  item_body quiz question = Raise ValueError.
Proof.
  intros H. split_types H.
  unfold item_body, str_in. cbn [existsb].
  now rewrite Htype, Htype0, Htype1, Htype2, Htype3, Htype4, Htype5.
Qed.

Lemma item_body_raises (quiz : Quiz.t) (question : Question.t) (e : exn) :
  item_body quiz question = Raise e -> e = ValueError.
Proof.
  unfold item_body.
  repeat match goal with
         | |- context [if ?b then _ else _] => destruct b
         end; congruence.
Qed.

Lemma response_processing_raises (question : Question.t) (e : exn) :
  response_processing question = Raise e -> e = ValueError.
Proof.
  unfold response_processing.
  repeat match goal with
         | |- context [if ?b then _ else _] => destruct b
         end; congruence.
Qed.

Lemma question_xml_uncovered (quiz : Quiz.t) (question : Question.t)
  (xml : list string) :
  covered (Question.type question) = false ->
  question_xml quiz question xml = Raise ValueError.
Proof.
  intros H. unfold question_xml.
  destruct (response_declaration question) as [[base_type cardinality] body].
  now rewrite (item_body_uncovered quiz question H).
Qed.

Lemma question_xml_raises (quiz : Quiz.t) (question : Question.t)
  (xml : list string) (e : exn) :
  question_xml quiz question xml = Raise e -> e = ValueError.
Proof.
  unfold question_xml.
  destruct (response_declaration question) as [[base_type cardinality] body].
  destruct (item_body quiz question) as [b|e1] eqn:Eb; simpl.
  - destruct (response_processing question) as [p|e2] eqn:Ep; simpl.
    + discriminate.
    + intros [= <-]. exact (response_processing_raises _ _ Ep).
  - intros [= <-]. exact (item_body_raises _ _ _ Eb).
Qed.

Lemma entries_xml_uncovered (quiz : Quiz.t) (question : Question.t)
  (entries : list entry) :
  In (IsQuestion question) entries ->
  covered (Question.type question) = false ->
  forall xml, exists e, entries_xml quiz entries xml = Raise e.
Proof.
  intros Hin Htype.
  induction entries as [|x entries IH]; intros xml; [destruct Hin|].
  simpl. destruct (entry_xml quiz x xml) as [xml'|e] eqn:Ex; simpl.
  - destruct Hin as [-> | Hin].
    + simpl in Ex. rewrite question_xml_uncovered in Ex by assumption.
      discriminate.
    + apply IH, Hin.
  - now exists e.
Qed.

Lemma entries_xml_raises (quiz : Quiz.t) (entries : list entry) :
  ~ In Other entries ->
  forall xml e, entries_xml quiz entries xml = Raise e -> e = ValueError.
Proof.
  induction entries as [|x entries IH]; intros Hno xml e; simpl.
  - discriminate.
  - destruct (entry_xml quiz x xml) as [xml'|e1] eqn:Ex; simpl.
    + apply IH. intros Hin. apply Hno. now right.
    + intros [= <-]. destruct x; simpl in Ex; try discriminate.
      * exact (question_xml_raises _ _ _ _ Ex).
      * exfalso. apply Hno. now left.
Qed.

(** C8.  A quiz that holds a question whose type is none of the seven of
    the encoding table yields no document: the generator raises, and what
    it raises is the [ValueError] of the item-body dispatch (the
    specification's SerializationError) unless an entry that is no quiz
    entry at all makes it raise [TypeError] first. *)
Theorem uncovered_type_is_fatal :
  forall (quiz : Quiz.t) (question : Question.t) (aid title : string),
    In (IsQuestion question) (Quiz.questions_and_delims quiz) ->
    covered (Question.type question) = false ->
    (exists e, assessment_v2 quiz aid title = Raise e)
    /\ (~ In Other (Quiz.questions_and_delims quiz) ->
        assessment_v2 quiz aid title = Raise ValueError).
Proof.
  intros quiz question aid title Hin Htype.
  destruct (entries_xml_uncovered quiz question _ Hin Htype
              [BEFORE_ITEMS aid title]) as [e He].
  unfold assessment_v2. rewrite He. simpl. split.
  - now exists e.
  - intros Hno. now rewrite (entries_xml_raises quiz _ Hno _ _ He).
Qed.

Lemma uncovered_type_is_fatal_witness :
  assessment_v2 matching_quiz "quiz" "Quiz" = Raise ValueError.
Proof.
  apply (uncovered_type_is_fatal matching_quiz matching "quiz" "Quiz").
  - simpl. right. left. reflexivity.
  - reflexivity.
  - simpl. intros [H|[H|[H|[]]]]; discriminate.
Defined.






(** ** Text regions *)

Lemma scan_app (s1 s2 : string) :
  forall st, scan st (s1 ++ s2) = scan (scan st s1) s2.
Proof. induction s1 as [|c s1 IH]; intros st; simpl; [reflexivity | apply IH]. Qed.

Lemma scan_plain (s : string) (names : list string) :
  plain s = true -> scan (None, names) s = (None, names).
Proof.
  induction s as [|c s IH]; simpl; [reflexivity|].
  intros H. apply andb_true_iff in H. destruct H as [Hc Hs].
  apply negb_true_iff in Hc. rewrite Hc. exact (IH Hs).
Qed.

Lemma text_region_elements (region : TextRegion.t) :
  plain (TextRegion.id region) = true ->
  plain (TextRegion.title_xml region) = true ->
  plain (TextRegion.text_html_xml region) = true ->
  elements (String.concat "" (text_region_xml region))
  = [ "assessmentItem"; "itemBody"; "p"; "outcomeDeclaration";
      "defaultValue"; "value"; "responseProcessing"; "responseCondition" ].
Proof.
  intros Hid Htitle Htext.
  unfold elements, text_region_xml, attr, dq.
  cbn [String.concat]. rewrite !append_assoc. cbn.
  repeat (rewrite scan_app, scan_plain by assumption; cbn).
  reflexivity.
Qed.

(** C6.  A text region becomes an item made of an item body, the SCORE
    declaration and an empty response condition: no responseDeclaration
    and no setOutcomeValue element is opened in it, and the region adds
    nothing to the total for MAXSCORE. *)
Theorem text_region_is_unscored :
  forall (quiz : Quiz.t) (region : TextRegion.t) (xml : list string)
         (before after : list entry),
    plain (TextRegion.id region) = true ->
    plain (TextRegion.title_xml region) = true ->
    plain (TextRegion.text_html_xml region) = true ->
    let item := String.concat "" (text_region_xml region) in
    entry_xml quiz (IsTextRegion region) xml
    = Ok (xml ++ text_region_xml region)%list
    /\ elements item
       = [ "assessmentItem"; "itemBody"; "p"; "outcomeDeclaration";
           "defaultValue"; "value"; "responseProcessing";
           "responseCondition" ]
    /\ ~ In "responseDeclaration" (elements item)
    /\ ~ In "setOutcomeValue" (elements item)
    /\ total_points (before ++ IsTextRegion region :: after)%list
       = total_points (before ++ after)%list.
Proof.
  intros quiz region xml before after Hid Htitle Htext item.
  assert (E := text_region_elements region Hid Htitle Htext).
  fold item in E.
  split; [reflexivity|]. split; [exact E|]. rewrite E.
  split; [|split].
  - simpl. intros H. repeat (destruct H as [H|H]; [discriminate|]). exact H.
  - simpl. intros H. repeat (destruct H as [H|H]; [discriminate|]). exact H.
  - rewrite !total_points_app. reflexivity.
Qed.

Lemma text_region_is_unscored_witness :
  total_points
    (Quiz.questions_and_delims pool_quiz
     ++ IsTextRegion notice :: [pool_question "6"])%list
  = total_points
      (Quiz.questions_and_delims pool_quiz ++ [pool_question "6"])%list.
Proof.
  apply (text_region_is_unscored pool_quiz notice []
           (Quiz.questions_and_delims pool_quiz) [pool_question "6"]);
    reflexivity.
Defined.

(** ** The reading is what the generator writes *)

Lemma correct_feedback_reading (question : Question.t) :
  correct_feedback question
  = render_feedback FEEDBACK_CORRECT
      (feedback_of (Question.correct_feedback_raw question)
         (Question.correct_feedback_html_xml question)).
Proof.
  unfold correct_feedback.
  now destruct (Question.correct_feedback_raw question).
Qed.

Lemma incorrect_feedback_reading (question : Question.t) :
  incorrect_feedback question
  = render_feedback FEEDBACK_INCORRECT
      (feedback_of (Question.incorrect_feedback_raw question)
         (Question.incorrect_feedback_html_xml question)).
Proof.
  unfold incorrect_feedback.
  now destruct (Question.incorrect_feedback_raw question).
Qed.

Lemma general_feedback_reading (question : Question.t) :
  general_feedback question
  = render_feedback FEEDBACK_GENERAL
      (feedback_of (Question.feedback_raw question)
         (Question.feedback_html_xml question)).
Proof.
  unfold general_feedback.
  now destruct (Question.feedback_raw question).
Qed.

Lemma response_processing_reading (question : Question.t) :
  response_processing question
  = match reading question with
    | Some p => Ok (render p)
    | None => Raise ValueError
    end.
Proof.
  unfold response_processing, reading, str_in. cbn [existsb].
  rewrite correct_feedback_reading, incorrect_feedback_reading,
    general_feedback_reading.
  destruct (String.eqb (Question.type question) true_false_question);
    [reflexivity|].
  destruct (String.eqb (Question.type question) multiple_choice_question);
    [reflexivity|].
  destruct (String.eqb (Question.type question) multiple_answers_question);
    [reflexivity|].
  destruct (String.eqb (Question.type question) short_answer_question);
    [cbn; now rewrite map_map|].
  destruct (String.eqb (Question.type question) numerical_question);
    [reflexivity|].
  destruct (String.eqb (Question.type question) essay_question);
    [reflexivity|].
  destruct (String.eqb (Question.type question) file_upload_question);
    reflexivity.
Qed.

Lemma SCORE_set_feedback (feedback : option string) (o : outcomes) :
  SCORE (set_feedback feedback o) = SCORE o.
Proof. now destruct feedback. Qed.

Lemma SCORE_run_graded (float_of : string -> Q) (declared : list string)
  (t : test) (points : Z) (correct incorrect general : option string)
  (r : response) (o : outcomes) :
  SCORE (run float_of declared (Graded t points correct incorrect general) r o)
  = if holds float_of declared t r then SCORE o + points else SCORE o.
Proof.
  simpl. destruct (holds float_of declared t r);
    now rewrite ?SCORE_set_feedback.
Qed.

(** ** Numerical questions *)



(** ** Multiple answers *)






(** ** Single-choice questions *)

Lemma body_ident_fresh (choice : Choice.t) :
  body_ident choice <> Choice.id choice.
Proof.
  unfold body_ident. intros H. apply (f_equal String.length) in H.
  rewrite length_append in H. simpl in H. lia.
Qed.

Lemma single_choice_type (type : string) :
  str_in type [true_false_question; multiple_choice_question] = true ->
  type = true_false_question \/ type = multiple_choice_question.
Proof.
  unfold str_in. cbn [existsb]. rewrite orb_false_r, orb_true_iff.
  now rewrite !String.eqb_eq.
Qed.

(** C3.  In a true/false or multiple-choice question with the one correct
    choice [choice], the response declaration lists the model id of the
    choice as the correct value, while the item body names the choice
    [qtimaker_choice_] followed by that id; the test of the response
    processing compares the response with the declared value, so the
    response that selects [choice] in the item body is not awarded the
    points. *)
Theorem correct_choice_is_not_awarded :
  forall (question : Question.t) (choice : Choice.t),
    str_in (Question.type question)
      [true_false_question; multiple_choice_question] = true ->
    filter Choice.correct (Question.choices question) = [choice] ->
    response_declaration question
    = ("identifier", "single", correct_response_line (Choice.id choice))
    /\ In (ITEM_BODY_CHOICE (body_ident choice) (Choice.choice_html_xml choice))
          (map (fun c => ITEM_BODY_CHOICE ("qtimaker_choice_" ++ Choice.id c)
                           (Choice.choice_html_xml c))
               (Question.choices question))
    /\ response_processing question
       = Ok (render (graded_reading question MatchCorrect))
    /\ (forall float_of o,
           SCORE (run float_of (declared_correct question)
                    (graded_reading question MatchCorrect)
                    (Identifier (body_ident choice)) o)
           = SCORE o).
Proof.
  intros question choice Htype Hcorrect. split; [|split; [|split]].
  - unfold response_declaration, str_in in *. cbn [existsb] in *.
    rewrite Hcorrect.
    destruct (single_choice_type _ Htype) as [-> | ->]; reflexivity.
  - apply in_map_iff. exists choice. split; [reflexivity|].
    assert (Hin : In choice (filter Choice.correct (Question.choices question)))
      by (rewrite Hcorrect; now left).
    now apply filter_In in Hin.
  - rewrite response_processing_reading. unfold reading.
    now rewrite Htype.
  - intros float_of o. unfold graded_reading. rewrite SCORE_run_graded.
    unfold declared_correct. rewrite Hcorrect.
    change (holds float_of (map Choice.id [choice]) MatchCorrect
              (Identifier (body_ident choice)))
      with (String.eqb (body_ident choice) (Choice.id choice)).
    destruct (String.eqb_spec (body_ident choice) (Choice.id choice))
      as [Heq|_]; [|reflexivity].
    now apply body_ident_fresh in Heq.
Qed.

Lemma correct_choice_is_not_awarded_witness :
  response_declaration capital
  = ("identifier", "single", correct_response_line "a")
  /\ SCORE (run read_2_4 ["a"] (graded_reading capital MatchCorrect)
              (Identifier "qtimaker_choice_a") (mk_outcomes 0 None)) = 0.
Proof.
  destruct (correct_choice_is_not_awarded capital choice_a eq_refl eq_refl)
    as (Hdecl & _ & _ & Hscore).
  split; [exact Hdecl | exact (Hscore read_2_4 (mk_outcomes 0 None))].
Defined.

(** C2.  The document generated for a multiple-choice question carries
    the model id of the correct choice, as it is, for the value of the
    correct response; the same choice is named with the prefix in the
    item body. *)
Theorem correct_response_value_is_bare_id :
  exists out at_declaration at_body,
    assessment_v2 capital_quiz "quiz" "Quiz" = Ok out
    /\ index 0 ("<correctResponse><value>" ++ Choice.id choice_a ++ "</value>")
         out = Some at_declaration
    /\ index 0 ("<simpleChoice"
                ++ attr "identifier" ("qtimaker_choice_" ++ Choice.id choice_a))
         out = Some at_body.
Proof.
  do 3 eexists. split; [|split]; vm_compute; reflexivity.
Qed.

(** ** Feedback *)







(** ** Essay and file upload *)

Lemma ungraded_type (type : string) :
  str_in type [essay_question; file_upload_question] = true ->
  type = essay_question \/ type = file_upload_question.
Proof.
  unfold str_in. cbn [existsb]. rewrite orb_false_r, orb_true_iff.
  now rewrite !String.eqb_eq.
Qed.

(** C10.  The item of an essay or file-upload question does not depend on
    the correct and the incorrect feedback of the question; its response
    processing is the null check with the general feedback, if any, as its
    one [responseElse], and it sets SCORE to zero for a null response and
    leaves it as it is for any other. *)
Theorem essay_upload_general_feedback_only :
  forall (quiz : Quiz.t) (question : Question.t) (xml : list string)
         (correct_raw incorrect_raw : option string)
         (correct_html_xml incorrect_html_xml : string),
    str_in (Question.type question)
      [essay_question; file_upload_question] = true ->
    let p := NullCheck (feedback_of (Question.feedback_raw question)
                          (Question.feedback_html_xml question)) in
    question_xml quiz
      (with_feedback question correct_raw correct_html_xml
         incorrect_raw incorrect_html_xml) xml
    = question_xml quiz question xml
    /\ response_processing question
       = Ok (RESPONSE_PROCESSING_ESSAY (general_feedback question))
    /\ response_processing question = Ok (render p)
    /\ (forall float_of declared r o,
           SCORE (run float_of declared p r o)
           = match r with NoResponse => 0 | _ => SCORE o end).
Proof.
  intros quiz question xml correct_raw incorrect_raw
    correct_html_xml incorrect_html_xml Htype p.
  apply ungraded_type in Htype.
  split; [|split; [|split]].
  - destruct question; cbn in Htype.
    destruct Htype as [-> | ->]; reflexivity.
  - destruct question; cbn in Htype.
    destruct Htype as [-> | ->]; reflexivity.
  - rewrite response_processing_reading.
    destruct question; cbn in Htype.
    destruct Htype as [-> | ->]; reflexivity.
  - intros float_of declared r o.
    subst p. destruct r; cbn [run SCORE];
      rewrite ?SCORE_set_feedback; reflexivity.
Qed.

Lemma essay_upload_general_feedback_only_witness :
  question_xml capital_quiz essay []
  = question_xml capital_quiz
      (with_feedback essay None "" None "") [].
Proof.
  symmetry.
  apply (essay_upload_general_feedback_only capital_quiz essay []
           None None "" "" eq_refl).
Defined.

(** ** Which quizzes generate *)

Lemma covered_cases (type : string) :
  covered type = true ->
  type = true_false_question \/ type = multiple_choice_question
  \/ type = multiple_answers_question \/ type = short_answer_question
  \/ type = numerical_question \/ type = essay_question
  \/ type = file_upload_question.
Proof.
  unfold covered, str_in. cbn [existsb].
  rewrite orb_false_r, !orb_true_iff, !String.eqb_eq. tauto.
Qed.

Lemma question_xml_covered (quiz : Quiz.t) (question : Question.t)
  (xml : list string) :
  covered (Question.type question) = true ->
  exists pieces, question_xml quiz question xml = Ok pieces.
Proof.
  intros H. apply covered_cases in H.
  destruct question; cbn in H.
  destruct H as [-> | [-> | [-> | [-> | [-> | [-> | ->]]]]]];
    eexists; reflexivity.
Qed.

Lemma entry_xml_generates (quiz : Quiz.t) (x : entry) (xml : list string) :
  generates x = true -> exists pieces, entry_xml quiz x xml = Ok pieces.
Proof.
  destruct x; cbn [generates entry_xml]; intros H;
    try (eexists; reflexivity); try discriminate.
  now apply question_xml_covered.
Qed.

Lemma entry_xml_fails (quiz : Quiz.t) (x : entry) (xml : list string) :
  generates x = false -> entry_xml quiz x xml = Raise (raised_by x).
Proof.
  destruct x; cbn [generates entry_xml raised_by]; intros H;
    try discriminate; [|reflexivity].
  now apply question_xml_uncovered.
Qed.

Lemma entries_xml_generates (quiz : Quiz.t) (entries : list entry) :
  forall xml,
    (exists pieces, entries_xml quiz entries xml = Ok pieces)
    <-> forallb generates entries = true.
Proof.
  induction entries as [|x entries IH]; intros xml; cbn [entries_xml forallb].
  - split; [reflexivity | now exists xml].
  - destruct (generates x) eqn:Hx.
    + destruct (entry_xml_generates quiz x xml Hx) as [pieces ->].
      cbn [bind andb]. apply IH.
    + rewrite (entry_xml_fails quiz x xml Hx). cbn [bind andb].
      split; [intros [pieces H] |]; discriminate.
Qed.

(** X1.  The generator returns a document exactly when every entry of the
    quiz is a text region, a group delimiter or a question of one of the
    seven types of the table; group delimiters need not be paired, and
    nothing else about a question can make it fail. *)
Theorem assessment_v2_returns_iff :
  forall (quiz : Quiz.t) (aid title : string),
    (exists out, assessment_v2 quiz aid title = Ok out)
    <-> forallb generates (Quiz.questions_and_delims quiz) = true.
Proof.
  intros quiz aid title.
  rewrite <- (entries_xml_generates quiz _ [BEFORE_ITEMS aid title]).
  unfold assessment_v2.
  destruct (entries_xml quiz _ _) as [pieces|e]; cbn [bind].
  - split; intros _; eexists; reflexivity.
  - split; intros [x H]; discriminate.
Qed.

(** X2.  When the generator raises, the first entry that it cannot handle
    decides what: [TypeError] for an object that is no quiz entry,
    [ValueError] for a question of a type outside the table; the entries
    after it are not looked at. *)
Theorem first_offender_decides :
  forall (quiz : Quiz.t) (aid title : string)
         (good rest : list entry) (bad : entry),
    Quiz.questions_and_delims quiz = (good ++ bad :: rest)%list ->
    forallb generates good = true ->
    generates bad = false ->
    assessment_v2 quiz aid title = Raise (raised_by bad).
Proof.
  intros quiz aid title good rest bad Hentries Hgood Hbad.
  unfold assessment_v2. rewrite Hentries, entries_xml_app.
  apply (entries_xml_generates quiz good [BEFORE_ITEMS aid title]) in Hgood.
  destruct Hgood as [pieces ->]. cbn [bind entries_xml].
  now rewrite (entry_xml_fails quiz bad pieces Hbad).
Qed.

Lemma first_offender_decides_witness :
  assessment_v2 stray_quiz "quiz" "Quiz" = Raise TypeError.
Proof.
  apply (first_offender_decides stray_quiz "quiz" "Quiz"
           [pool_question "1"] [IsQuestion matching] Other);
    reflexivity.
Defined.

(** ** The document, fragment by fragment *)




(** ** Short answers *)



(** ** The shuffle flag *)

(** X5.  The item of a question depends on the quiz through one test
    only, whether [shuffle_answers_xml] is the string [true]: any other
    value, [True] or [1] among them, gives the items of [false]; and the
    item of a question that is not a choice question does not depend on
    the quiz at all. *)
Theorem item_reads_shuffle_flag_only :
  forall (quiz quiz' : Quiz.t) (question : Question.t) (xml : list string),
    (String.eqb (Quiz.shuffle_answers_xml quiz) "true"
     = String.eqb (Quiz.shuffle_answers_xml quiz') "true" ->
     question_xml quiz question xml = question_xml quiz' question xml)
    /\ (str_in (Question.type question)
          [true_false_question; multiple_choice_question;
           multiple_answers_question] = false ->
        question_xml quiz question xml = question_xml quiz' question xml).
Proof.
  intros quiz quiz' question xml. split.
  - intros H. unfold question_xml, item_body. now rewrite H.
  - unfold str_in. cbn [existsb]. intros H.
    repeat (apply orb_false_iff in H;
            let H1 := fresh "Htype" in destruct H as [H1 H]).
    unfold question_xml, item_body, str_in. cbn [existsb].
    now rewrite Htype, Htype0, Htype1.
Qed.

Lemma item_reads_shuffle_flag_only_witness :
  question_xml capital_quiz_True capital []
  = question_xml capital_quiz capital [].
Proof.
  apply (proj1 (item_reads_shuffle_flag_only capital_quiz_True capital_quiz
                  capital [])).
  reflexivity.
Defined.

(** ** The total *)




(** ** Identifiers *)

Lemma question_xml_opens (quiz : Quiz.t) (question : Question.t)
  (pieces : list string) :
  question_xml quiz question [] = Ok pieces ->
  exists rest,
    pieces = START_ITEM ("qtimaker_question_" ++ Question.id question)
               (Question.title_xml question) :: rest.
Proof.
  unfold question_xml.
  destruct (response_declaration question) as [[base_type cardinality] body].
  destruct (item_body quiz question) as [b|e]; cbn [bind]; [|discriminate].
  destruct (response_processing question) as [p|e]; cbn [bind];
    [|discriminate].
  destruct (str_in (Question.type question) _); intros [= <-];
    eexists; reflexivity.
Qed.

(** X7.  The element of a question, a group or a text region carries the
    identifier made of the prefix of its kind and its model id.  Two
    entries with the same identifier are of the same kind and have the
    same model id, so entries of different kinds never share an
    identifier, even with equal model ids; and no choice of an item body
    has the identifier of an entry. *)
Theorem identifiers_are_namespaced :
  forall (x : entry) (ident : string),
    entry_ident x = Some ident ->
    (forall quiz pieces,
        entry_xml quiz x [] = Ok pieces ->
        exists tag more rest,
          pieces
          = ("      <" ++ tag ++ attr "identifier" ident ++ more) :: rest)
    /\ (forall y, entry_ident y = Some ident -> entry_key y = entry_key x)
    /\ (forall choice, body_ident choice <> ident).
Proof.
  intros x ident Hx. split; [|split].
  - intros quiz pieces H.
    destruct x as [question|group| |region| ]; try discriminate;
      cbn [entry_ident] in Hx; injection Hx as <-; cbn [entry_xml] in H.
    + destruct (question_xml_opens _ _ _ H) as [rest ->].
      exists "assessmentItem". eexists. exists rest.
      unfold START_ITEM. rewrite ?append_assoc. reflexivity.
    + injection H as <-. exists "assessmentSection". do 2 eexists.
      unfold GROUP_START. cbn [app]. rewrite ?append_assoc. reflexivity.
    + injection H as <-. exists "assessmentItem". do 2 eexists.
      unfold text_region_xml. cbn [app]. rewrite ?append_assoc.
      reflexivity.
  - intros y Hy.
    destruct x as [question|group| |region| ]; try discriminate;
      destruct y as [question'|group'| |region'| ]; try discriminate;
      cbn [entry_ident entry_key] in *;
      injection Hx as <-; injection Hy as Hy;
      try (cbn in Hy; discriminate);
      now rewrite Hy.
  - intros choice Heq. unfold body_ident in Heq.
    destruct x as [question|group| |region| ]; try discriminate;
      cbn [entry_ident] in Hx; injection Hx as <-;
      cbn in Heq; discriminate.
Qed.

Lemma identifiers_are_namespaced_witness :
  entry_key (IsGroupStart (Group.mk "1" "Another pool" 2 2))
  = entry_key (IsGroupStart (Group.mk "1" "Pool" 1 1)).
Proof.
  apply (proj1 (proj2 (identifiers_are_namespaced
                         (IsGroupStart (Group.mk "1" "Pool" 1 1))
                         "qtimaker_group_1" eq_refl))).
  reflexivity.
Defined.

(** ** The elements of an item *)

Ltac scan_through :=
  repeat (rewrite scan_app, scan_plain by assumption; cbn).

Lemma plain_string_of_uint (d : Decimal.uint) :
  plain (NilEmpty.string_of_uint d) = true.
Proof. induction d; cbn; auto. Qed.

Lemma plain_str_of_Z (n : Z) : plain (str_of_Z n) = true.
Proof.
  unfold str_of_Z, NilZero.string_of_int, NilZero.string_of_uint.
  destruct (Z.to_int n) as [d|d]; destruct d; cbn;
    auto using plain_string_of_uint.
Qed.

Lemma scan_choice (names : list string) (id html : string) :
  plain id = true -> plain html = true ->
  scan (None, names) (ITEM_BODY_CHOICE ("qtimaker_choice_" ++ id) html)
  = (None, (names ++ ["simpleChoice"])%list).
Proof.
  intros Hid Hhtml. unfold ITEM_BODY_CHOICE, attr, dq, nl.
  rewrite !append_assoc. cbn. scan_through. reflexivity.
Qed.

Lemma scan_choices (choices : list Choice.t) :
  (forall choice, In choice choices ->
                  plain (Choice.id choice) = true
                  /\ plain (Choice.choice_html_xml choice) = true) ->
  forall names,
    scan (None, names)
      (String.concat nl
         (map (fun c => ITEM_BODY_CHOICE ("qtimaker_choice_" ++ Choice.id c)
                          (Choice.choice_html_xml c))
              choices))
    = (None, (names ++ repeat "simpleChoice" (List.length choices))%list).
Proof.
  induction choices as [|choice choices IH]; intros Hplain names.
  - cbn. now rewrite app_nil_r.
  - destruct (Hplain choice (or_introl eq_refl)) as [Hid Hhtml].
    assert (Hrest : forall c, In c choices ->
                      plain (Choice.id c) = true
                      /\ plain (Choice.choice_html_xml c) = true)
      by (intros c Hc; apply Hplain; now right).
    specialize (IH Hrest).
    destruct choices as [|next choices].
    + cbn [map String.concat List.length repeat].
      now apply scan_choice.
    + change (String.concat nl (map ?f (choice :: next :: choices)))
        with (f choice ++ nl ++ String.concat nl (map f (next :: choices))).
      rewrite scan_app, scan_choice by assumption.
      rewrite scan_app. cbn [scan nl scan_char Ascii.eqb]. cbn.
      rewrite IH. cbn [List.length repeat].
      now rewrite <- app_assoc.
Qed.

(** X8.  The item body of a true/false, multiple-choice or
    multiple-answers question opens an itemBody, the paragraph of the
    question, one choiceInteraction and one simpleChoice for each choice
    of the question, and nothing else; with no choice the interaction is
    empty. *)
Theorem choice_body_lists_every_choice :
  forall (quiz : Quiz.t) (question : Question.t),
    str_in (Question.type question)
      [true_false_question; multiple_choice_question;
       multiple_answers_question] = true ->
    plain (Question.question_html_xml question) = true ->
    (forall choice,
        In choice (Question.choices question) ->
        plain (Choice.id choice) = true
        /\ plain (Choice.choice_html_xml choice) = true) ->
    exists body,
      item_body quiz question = Ok body
      /\ elements body
         = (["itemBody"; "p"; "choiceInteraction"]
            ++ repeat "simpleChoice"
                 (List.length (Question.choices question)))%list.
Proof.
  intros quiz question Htype Hhtml Hchoices.
  assert (Hshuffle :
            plain (if String.eqb (Quiz.shuffle_answers_xml quiz) "true"
                   then "true" else "false") = true)
    by (now destruct (String.eqb _ _)).
  assert (Hlen : plain (str_of_len (Question.choices question)) = true)
    by apply plain_str_of_Z.
  unfold item_body.
  destruct (str_in (Question.type question)
              [true_false_question; multiple_choice_question]) eqn:Hsingle.
  - eexists. split; [reflexivity|].
    unfold elements, ITEM_BODY_MCTF, choices_xml, attr, dq, nl.
    rewrite !append_assoc. cbn.
    rewrite scan_app, scan_plain by assumption. cbn.
    rewrite scan_app, scan_plain by assumption. cbn.
    rewrite scan_app. fold nl. rewrite scan_choices by assumption.
    reflexivity.
  - assert (Hmulti : String.eqb (Question.type question)
                       multiple_answers_question = true).
    { unfold str_in in *. cbn [existsb] in *.
      rewrite orb_false_r in Hsingle.
      rewrite orb_false_r, orb_assoc, Hsingle in Htype. exact Htype. }
    rewrite Hmulti. eexists. split; [reflexivity|].
    unfold elements, ITEM_BODY_MULTANS, choices_xml, attr, dq, nl.
    rewrite !append_assoc. cbn.
    rewrite scan_app, scan_plain by assumption. cbn.
    rewrite scan_app, scan_plain by assumption. cbn.
    rewrite scan_app, scan_plain by assumption. cbn.
    rewrite scan_app. fold nl. rewrite scan_choices by assumption.
    reflexivity.
Qed.

Lemma choice_body_lists_every_choice_witness :
  exists body,
    item_body capital_quiz capital = Ok body
    /\ elements body
       = [ "itemBody"; "p"; "choiceInteraction"; "simpleChoice";
           "simpleChoice"; "simpleChoice"; "simpleChoice" ].
Proof.
  apply (choice_body_lists_every_choice capital_quiz capital).
  - reflexivity.
  - reflexivity.
  - intros choice [<-|[<-|[<-|[<-|[]]]]]; split; reflexivity.
Defined.

(** X9.  The item of an essay or file-upload question declares nothing:
    it opens no responseDeclaration and no outcomeDeclaration, although
    its response processing tests RESPONSE and assigns SCORE; after the
    item body come the null check and, when the question has a general
    feedback, one responseElse. *)
Theorem essay_item_declares_nothing :
  forall (quiz : Quiz.t) (question : Question.t),
    str_in (Question.type question)
      [essay_question; file_upload_question] = true ->
    plain (Question.id question) = true ->
    plain (Question.title_xml question) = true ->
    plain (Question.question_html_xml question) = true ->
    plain (Question.feedback_html_xml question) = true ->
    exists pieces,
      question_xml quiz question [] = Ok pieces
      /\ elements (String.concat "" pieces)
         = ([ "assessmentItem"; "itemBody"; "p";
              if String.eqb (Question.type question) essay_question
              then "extendedTextInteraction" else "uploadInteraction";
              "responseProcessing"; "responseCondition"; "responseIf";
              "isNull"; "variable"; "setOutcomeValue"; "baseValue" ]
            ++ match Question.feedback_raw question with
               | Some _ => ["responseElse"; "setOutcomeValue"; "baseValue"]
               | None => []
               end)%list
      /\ ~ In "responseDeclaration" (elements (String.concat "" pieces))
      /\ ~ In "outcomeDeclaration" (elements (String.concat "" pieces)).
Proof.
  intros quiz question Htype Hid Htitle Hhtml Hfeedback.
  apply ungraded_type in Htype.
  assert (Helements :
    exists pieces,
      question_xml quiz question [] = Ok pieces
      /\ elements (String.concat "" pieces)
         = ([ "assessmentItem"; "itemBody"; "p";
              if String.eqb (Question.type question) essay_question
              then "extendedTextInteraction" else "uploadInteraction";
              "responseProcessing"; "responseCondition"; "responseIf";
              "isNull"; "variable"; "setOutcomeValue"; "baseValue" ]
            ++ match Question.feedback_raw question with
               | Some _ => ["responseElse"; "setOutcomeValue"; "baseValue"]
               | None => []
               end)%list).
  { destruct question; cbn in *.
    destruct Htype as [-> | ->]; eexists; (split; [reflexivity|]);
      unfold elements, START_ITEM, ITEM_BODY_ESSAY, ITEM_BODY_UPLOAD,
        RESPONSE_PROCESSING_UPLOAD, RESPONSE_PROCESSING_ESSAY, RP_OPEN,
        END_ITEM, general_feedback, FEEDBACK_GENERAL, attr, dq, nl;
      cbn [String.concat Question.feedback_raw Question.feedback_html_xml];
      destruct feedback_raw; cbn;
      repeat (rewrite ?append_assoc;
              rewrite scan_app, scan_plain by assumption; cbn);
      reflexivity. }
  destruct Helements as (pieces & Hok & Helements).
  exists pieces. split; [exact Hok|]. split; [exact Helements|].
  rewrite Helements.
  split; intros H; apply in_app_or in H; destruct H as [H|H].
  - cbn in H. destruct (String.eqb _ _);
      repeat (destruct H as [H|H]; [discriminate|]); exact H.
  - destruct (Question.feedback_raw question); cbn in H;
      repeat (destruct H as [H|H]; [discriminate|]); exact H.
  - cbn in H. destruct (String.eqb _ _);
      repeat (destruct H as [H|H]; [discriminate|]); exact H.
  - destruct (Question.feedback_raw question); cbn in H;
      repeat (destruct H as [H|H]; [discriminate|]); exact H.
Qed.

Lemma essay_item_declares_nothing_witness :
  exists pieces,
    question_xml capital_quiz essay [] = Ok pieces
    /\ ~ In "outcomeDeclaration" (elements (String.concat "" pieces)).
Proof.
  destruct (essay_item_declares_nothing capital_quiz essay)
    as (pieces & Hok & _ & _ & Hnone); try reflexivity.
  exists pieces. split; assumption.
Defined.

(** * The quiz route *)

Lemma add_choices_acc (chr : nat -> string) (choices : list string) :
  forall quiz_text i correct_answer,
    QuizGeneration.add_choices chr quiz_text i choices correct_answer
    = quiz_text
      ++ QuizGeneration.add_choices chr "" i choices correct_answer.
Proof.
  induction choices as [|choice rest IH]; intros quiz_text i correct_answer;
    cbn [QuizGeneration.add_choices].
  - now rewrite append_nil_r.
  - rewrite (IH (quiz_text ++ _)), (IH ("" ++ _)).
    cbn [append]. now rewrite append_assoc.
Qed.

Lemma add_choices_unmarked (chr : nat -> string) (choices : list string)
  (c : Z) :
  forall quiz_text i,
    c < Z.of_nat i \/ Z.of_nat i + Z.of_nat (List.length choices) <= c ->
    QuizGeneration.add_choices chr quiz_text i choices (Some c)
    = QuizGeneration.add_choices chr quiz_text i choices None.
Proof.
  induction choices as [|choice rest IH]; intros quiz_text i Hc;
    cbn [QuizGeneration.add_choices]; [reflexivity|].
  cbn [List.length] in Hc. cbn [QuizGeneration.is_correct].
  replace (Z.of_nat i =? c) with false by (symmetry; apply Z.eqb_neq; lia).
  apply IH. lia.
Qed.

(** X10.  A [correct_answer] that is negative or not below the number of
    choices marks no choice: the markup of the question is the one of a
    question without [correct_answer], so the answer 4 given for four
    choices leaves every choice unmarked. *)
Theorem out_of_range_answer_marks_nothing :
  forall (chr : nat -> string) (quiz_text : string) (idx : nat)
         (question : QuizGeneration.Question) (c : Z),
    QuizGeneration.correct_answer question = Some c ->
    (c < 0
     \/ match QuizGeneration.choices question with
        | Some choices => Z.of_nat (List.length choices) <= c
        | None => True
        end) ->
    QuizGeneration.add_question chr quiz_text idx question
    = QuizGeneration.add_question chr quiz_text idx
        (QuizGeneration.with_correct_answer question None).
Proof.
  intros chr quiz_text idx question c Hanswer Hrange.
  unfold QuizGeneration.add_question, QuizGeneration.with_correct_answer.
  cbn [QuizGeneration.id QuizGeneration.type QuizGeneration.text
       QuizGeneration.choices QuizGeneration.correct_answer
       QuizGeneration.explanation].
  rewrite Hanswer.
  destruct (str_in (QuizGeneration.type question) _); [|reflexivity].
  destruct (QuizGeneration.choices question) as [[|choice rest]|];
    try reflexivity.
  rewrite add_choices_unmarked; [reflexivity|].
  destruct Hrange as [H|H]; [left | right]; cbn [Z.of_nat] in *; lia.
Qed.

Lemma out_of_range_answer_marks_nothing_witness :
  QuizGeneration.add_question chr_latin1 "" 1 web_question
  = QuizGeneration.add_question chr_latin1 "" 1
      (QuizGeneration.with_correct_answer web_question None).
Proof.
  apply (out_of_range_answer_marks_nothing chr_latin1 "" 1 web_question 4).
  - reflexivity.
  - right. cbn. lia.
Defined.

Lemma append_nil_l (s : string) : "" ++ s = s.
Proof. reflexivity. Qed.

Lemma add_question_acc (chr : nat -> string) (quiz_text : string)
  (idx : nat) (question : QuizGeneration.Question) :
  QuizGeneration.add_question chr quiz_text idx question
  = quiz_text ++ QuizGeneration.block chr idx question.
Proof.
  unfold QuizGeneration.block, QuizGeneration.add_question.
  destruct (str_in (QuizGeneration.type question) _).
  - destruct (QuizGeneration.choices question) as [[|choice rest]|];
      try (now rewrite ?append_nil_l, ?append_assoc).
    rewrite (add_choices_acc chr _ ((quiz_text ++ _) ++ _)),
      (add_choices_acc chr _ (("" ++ _) ++ _)).
    now rewrite ?append_nil_l, ?append_assoc.
  - destruct (String.eqb (QuizGeneration.type question) "short_answer");
      [now rewrite ?append_nil_l, ?append_assoc|].
    destruct (String.eqb (QuizGeneration.type question) "essay");
      now rewrite ?append_nil_l, ?append_assoc.
Qed.

Lemma add_questions_blocks (chr : nat -> string)
  (questions : list QuizGeneration.Question) :
  forall quiz_text idx,
    QuizGeneration.add_questions chr quiz_text idx questions
    = quiz_text
      ++ String.concat ""
           (map (fun numbered =>
                   QuizGeneration.block chr (fst numbered) (snd numbered))
                (combine (seq idx (List.length questions)) questions)).
Proof.
  induction questions as [|question rest IH]; intros quiz_text idx;
    cbn [QuizGeneration.add_questions List.length seq combine map].
  - cbn. now rewrite append_nil_r.
  - rewrite IH, add_question_acc, concat_cons. cbn [fst snd].
    now rewrite append_assoc.
Qed.

(** X11.  For a request with questions, the markup handed to the parser
    is the header followed by one block for each question, in the order of
    the request, the k-th of them numbered k from 1; the block of a
    question depends on nothing but its number and the question; and the
    version handed on is 1.2, whatever version the request names. *)
Theorem quiz_markup_is_header_and_blocks :
  forall (chr : nat -> string)
         (request : QuizGeneration.QuizGenerationRequest),
    QuizGeneration.questions request <> [] ->
    QuizGeneration.quiz_markup chr request
    = QuizGeneration.Returns
        (QuizGeneration.header request
         ++ String.concat ""
              (map (fun numbered =>
                      QuizGeneration.block chr (fst numbered) (snd numbered))
                   (combine
                      (seq 1 (List.length (QuizGeneration.questions request)))
                      (QuizGeneration.questions request))),
         "1.2").
Proof.
  intros chr request Hquestions. unfold QuizGeneration.quiz_markup.
  rewrite add_questions_blocks.
  destruct (QuizGeneration.questions request); [congruence | reflexivity].
Qed.

Lemma quiz_markup_is_header_and_blocks_witness :
  QuizGeneration.quiz_markup chr_latin1 web_request
  = QuizGeneration.Returns
      (QuizGeneration.header web_request
       ++ QuizGeneration.block chr_latin1 1 web_question
       ++ QuizGeneration.block chr_latin1 2 web_essay,
       "1.2").
Proof.
  rewrite (quiz_markup_is_header_and_blocks chr_latin1 web_request).
  - reflexivity.
  - discriminate.
Defined.

(** * Chunking *)

Lemma split_after_two (current : string) (a b : ascii) (rest : string) :
  split_after current (String a (String b rest))
  = if Ascii.eqb a "010" && Ascii.eqb b "010"
    then current :: split_after "" rest
    else split_after (current ++ String a "") (String b rest).
Proof. reflexivity. Qed.

Lemma split_after_nonempty (text : string) :
  forall current, split_after current text <> [].
Proof.
  assert (H : forall n text, (String.length text <= n)%nat ->
                forall current, split_after current text <> []).
  { induction n as [|n IH]; intros [|a [|b rest]] Hlen current;
      try discriminate; cbn in Hlen; try lia.
    rewrite split_after_two.
    destruct (Ascii.eqb a "010" && Ascii.eqb b "010"); [discriminate|].
    apply IH. cbn. lia. }
  exact (H (String.length text) text (Nat.le_refl _)).
Qed.

Lemma rstrip_idempotent (s : string) : rstrip (rstrip s) = rstrip s.
Proof.
  induction s as [|c s IH]; [reflexivity|]. cbn [rstrip].
  destruct (rstrip s) as [|c' r] eqn:E.
  - destruct (isspace c) eqn:Hc; cbn [rstrip]; [reflexivity | now rewrite Hc].
  - cbn [rstrip]. cbn [rstrip] in IH. now rewrite IH.
Qed.

Lemma lstrip_cases (s : string) :
  lstrip s = ""
  \/ exists c t, lstrip s = String c t /\ isspace c = false.
Proof.
  induction s as [|c s IH]; cbn [lstrip]; [now left|].
  destruct (isspace c) eqn:Hc; [exact IH | right; now exists c, s].
Qed.

Lemma rstrip_solid (c : ascii) (t : string) :
  isspace c = false -> exists r, rstrip (String c t) = String c r.
Proof.
  intros Hc. cbn [rstrip]. destruct (rstrip t).
  - rewrite Hc. now exists "".
  - now eexists.
Qed.

Lemma strip_idempotent (s : string) : strip (strip s) = strip s.
Proof.
  unfold strip. destruct (lstrip_cases s) as [-> | (c & t & -> & Hc)].
  - reflexivity.
  - destruct (rstrip_solid c t Hc) as [r Hr].
    rewrite Hr. cbn [lstrip]. rewrite Hc, <- Hr. apply rstrip_idempotent.
Qed.




Lemma flush_stripped (chunks : list string) (current : string) :
  Forall (fun c => strip c = c) chunks ->
  Forall (fun c => strip c = c) (flush chunks current).
Proof.
  intros H. unfold flush. destruct (nonempty current); [|exact H].
  apply Forall_app. split; [exact H|].
  constructor; [apply strip_idempotent | constructor].
Qed.

Lemma add_paragraph_invariant (chunk_size : Z) (state : list string * string)
  (para : string) :
  Forall (fun c => strip c = c) (fst state) ->
  Forall (fun c => strip c = c) (fst (add_paragraph chunk_size state para))
  /\ nonempty (snd (add_paragraph chunk_size state para)) = true.
Proof.
  destruct state as [chunks current]. cbn [fst]. intros H.
  unfold add_paragraph. destruct (_ <? _); cbn [fst snd].
  - split; [exact H|]. destruct current; [destruct para|]; reflexivity.
  - split; [now apply flush_stripped | destruct para; reflexivity].
Qed.

Lemma fold_add_paragraph (chunk_size : Z) (paragraphs : list string) :
  forall state,
    Forall (fun c => strip c = c) (fst state) ->
    (paragraphs <> [] \/ nonempty (snd state) = true) ->
    Forall (fun c => strip c = c)
      (fst (fold_left (add_paragraph chunk_size) paragraphs state))
    /\ nonempty (snd (fold_left (add_paragraph chunk_size) paragraphs state))
       = true.
Proof.
  induction paragraphs as [|para paragraphs IH]; intros state Hchunks Hstate;
    cbn [fold_left].
  - destruct Hstate as [H|H]; [congruence | now split].
  - destruct (add_paragraph_invariant chunk_size state para Hchunks)
      as [Hchunks' Hcurrent'].
    apply IH; [exact Hchunks' | now right].
Qed.

(** X12.  [split_into_chunks] returns at least one chunk for every text
    and every chunk size, the empty text included, so that the route can
    divide by the number of chunks; and no chunk begins or ends with a
    blank. *)
Theorem split_into_chunks_never_empty :
  forall (text : string) (chunk_size : Z),
    split_into_chunks text chunk_size <> []
    /\ Forall (fun chunk => strip chunk = chunk)
         (split_into_chunks text chunk_size).
Proof.
  intros text chunk_size. unfold split_into_chunks.
  destruct (fold_add_paragraph chunk_size (split_blank_lines text) ([], ""))
    as [Hchunks Hcurrent].
  - constructor.
  - left. apply split_after_nonempty.
  - destruct (fold_left _ _ _) as [chunks current]. cbn [fst snd] in *.
    split; [|now apply flush_stripped].
    unfold flush. rewrite Hcurrent. now destruct chunks.
Qed.






Lemma rstrip_app_blank (s blank : string) :
  rstrip blank = "" -> rstrip (s ++ blank) = rstrip s.
Proof.
  intros Hblank. induction s as [|c s IH]; cbn [append rstrip];
    [exact Hblank | now rewrite IH].
Qed.


Lemma strip_app_blank (s blank : string) :
  rstrip blank = "" -> strip (s ++ blank) = strip s.
Proof.
  intros Hblank. unfold strip.
  induction s as [|c s IH]; cbn [append lstrip].
  - assert (H : lstrip blank = "").
    { clear -Hblank. induction blank as [|c blank IH]; [reflexivity|].
      cbn [rstrip] in Hblank. cbn [lstrip].
      destruct (rstrip blank); [|discriminate].
      destruct (isspace c); [now apply IH | discriminate]. }
    now rewrite H.
  - destruct (isspace c); [exact IH|].
    apply (rstrip_app_blank (String c s) blank Hblank).
Qed.

Lemma rstrip_two_newlines : rstrip (nl ++ nl) = "".
Proof. reflexivity. Qed.


Lemma nonempty_true (s : string) : nonempty s = true <-> s <> "".
Proof. destruct s; cbn; split; congruence. Qed.


Lemma len_append (s t : string) : len (s ++ t) = len s + len t.
Proof. unfold len. rewrite length_append. lia. Qed.






Lemma concat_sep_cons (sep s : string) (l : list string) :
  l <> [] -> String.concat sep (s :: l) = s ++ sep ++ String.concat sep l.
Proof. destruct l; [congruence | reflexivity]. Qed.

Lemma split_after_join (text : string) :
  forall current,
    String.concat (nl ++ nl) (split_after current text) = current ++ text.
Proof.
  assert (H : forall n text, (String.length text <= n)%nat ->
                forall current,
                  String.concat (nl ++ nl) (split_after current text)
                  = current ++ text).
  { induction n as [|n IH]; intros [|a [|b rest]] Hlen current;
      cbn in Hlen; try lia;
      try (cbn [split_after String.concat]; now rewrite ?append_nil_r).
    rewrite split_after_two.
    destruct (Ascii.eqb a "010" && Ascii.eqb b "010") eqn:Hab.
    - apply andb_true_iff in Hab. destruct Hab as [Ha Hb].
      apply Ascii.eqb_eq in Ha, Hb. subst a b.
      rewrite concat_sep_cons by apply split_after_nonempty.
      rewrite IH by lia. reflexivity.
    - rewrite IH by (cbn; lia). now rewrite append_assoc. }
  exact (H (String.length text) text (Nat.le_refl _)).
Qed.

Lemma concat_with_trailing (sep : string) (paragraphs : list string) :
  paragraphs <> [] ->
  String.concat "" (map (fun p => p ++ sep) paragraphs)
  = String.concat sep paragraphs ++ sep.
Proof.
  induction paragraphs as [|p rest IH]; [congruence|]. intros _.
  cbn [map]. rewrite concat_cons.
  destruct rest as [|q rest]; [cbn; now rewrite append_nil_r|].
  rewrite IH by discriminate.
  rewrite (concat_sep_cons sep p (q :: rest)) by discriminate.
  now rewrite !append_assoc.
Qed.

Lemma fold_add_paragraph_fits (chunk_size : Z) (paragraphs : list string) :
  forall current,
    paragraphs = []
    \/ len current + len (String.concat (nl ++ nl) paragraphs) < chunk_size ->
    fold_left (add_paragraph chunk_size) paragraphs ([], current)
    = ([], current
           ++ String.concat "" (map (fun p => p ++ nl ++ nl) paragraphs)).
Proof.
  induction paragraphs as [|p rest IH]; intros current Hfits;
    cbn [fold_left map].
  - cbn. now rewrite append_nil_r.
  - destruct Hfits as [Hfits|Hfits]; [discriminate|].
    rewrite concat_cons. unfold add_paragraph at 2.
    destruct rest as [|q rest].
    + cbn [String.concat] in Hfits.
      replace (len current + len p <? chunk_size) with true
        by (symmetry; apply Z.ltb_lt; lia).
      cbn [fold_left map String.concat]. now rewrite append_nil_r.
    + rewrite (concat_sep_cons _ p (q :: rest)) in Hfits by discriminate.
      rewrite !len_append in Hfits.
      pose proof (Zle_0_nat (String.length (String.concat (nl ++ nl)
                                              (q :: rest)))) as Hpos.
      fold (len (String.concat (nl ++ nl) (q :: rest))) in Hpos.
      replace (len current + len p <? chunk_size) with true
        by (symmetry; apply Z.ltb_lt; change (len nl) with 1 in Hfits; lia).
      rewrite IH.
      * now rewrite !append_assoc.
      * right. rewrite !len_append. lia.
Qed.

(** X14.  A text shorter than the chunk size comes back from
    [split_into_chunks] as one chunk, the text without the blanks at its
    two ends: cutting at the blank lines and joining again loses
    nothing. *)
Theorem split_into_chunks_short_text :
  forall (text : string) (chunk_size : Z),
    len text < chunk_size ->
    split_into_chunks text chunk_size = [strip text].
Proof.
  intros text chunk_size Hshort. unfold split_into_chunks.
  pose proof (split_after_join text "") as Hjoin.
  pose proof (split_after_nonempty text "") as Hne.
  fold (split_blank_lines text) in Hjoin, Hne.
  rewrite append_nil_l in Hjoin.
  rewrite fold_add_paragraph_fits
    by (right; rewrite Hjoin; exact Hshort).
  rewrite append_nil_l, (concat_with_trailing (nl ++ nl)) by exact Hne.
  rewrite Hjoin. unfold flush.
  replace (nonempty (text ++ nl ++ nl)) with true
    by (now destruct text).
  now rewrite (strip_app_blank text (nl ++ nl) rstrip_two_newlines).
Qed.

Lemma split_into_chunks_short_text_witness :
  split_into_chunks three_paragraphs 100 = [three_paragraphs].
Proof.
  apply (split_into_chunks_short_text three_paragraphs 100).
  reflexivity.
Defined.

(** * Overlapping chunks *)







Lemma chunk_loop_chunks (text : string) (chunk_size overlap : Z) :
  forall fuel chunks start index result,
    Forall (chunk_of_window text) chunks ->
    map Chunk.index chunks = map Z.of_nat (seq 0 (List.length chunks)) ->
    index = Z.of_nat (List.length chunks) ->
    chunk_loop fuel text chunk_size overlap chunks start index
    = Some result ->
    Forall (chunk_of_window text) result
    /\ map Chunk.index result = map Z.of_nat (seq 0 (List.length result)).
Proof.
  induction fuel as [|fuel IH]; intros chunks start index result
    Hchunks Hindices Hindex; cbn [chunk_loop];
    destruct (start <? len text); try discriminate;
    try (intros [= <-]; now split).
  destruct (nonempty (strip (slice text start
                               (window_end text chunk_size start))))
    eqn:Hne.
  - apply IH.
    + apply Forall_app. split; [exact Hchunks|].
      constructor; [|constructor].
      exists start, (window_end text chunk_size start).
      cbn. repeat split. now apply nonempty_true.
    + rewrite map_app, length_app, seq_app, map_app, Hindices.
      cbn. now rewrite Hindex.
    + rewrite length_app. cbn [List.length]. lia.
  - now apply IH.
Qed.

(** X16.  Whatever [_chunk_text] returns for a text that is not shorter
    than [chunk_size], every chunk is a window of the text, stripped, and
    is not empty; its [length] is the length of its content; and the
    chunks are numbered 0, 1, 2 and so on without a gap, a window that
    strips to nothing taking no number. *)
Theorem chunk_text_chunks :
  forall (fuel : nat) (text : string) (chunk_size overlap : Z)
         (chunks : list Chunk.t),
    text <> "" -> chunk_size <= len text ->
    _chunk_text fuel text chunk_size overlap = Some chunks ->
    Forall (chunk_of_window text) chunks
    /\ map Chunk.index chunks = map Z.of_nat (seq 0 (List.length chunks)).
Proof.
  intros fuel text chunk_size overlap chunks Htext Hsize.
  unfold _chunk_text.
  replace (nonempty text) with true
    by (symmetry; now apply nonempty_true).
  replace (len text <? chunk_size) with false
    by (symmetry; apply Z.ltb_ge; lia).
  cbn [negb orb]. now apply chunk_loop_chunks.
Qed.

Lemma chunk_text_chunks_witness :
  exists chunks,
    _chunk_text 200 twenty_sentences 120 10 = Some chunks
    /\ Forall (chunk_of_window twenty_sentences) chunks
    /\ map Chunk.index chunks = map Z.of_nat (seq 0 (List.length chunks)).
Proof.
  eexists. split; [vm_compute; reflexivity|].
  apply (chunk_text_chunks 200 twenty_sentences 120 10).
  - discriminate.
  - vm_compute. discriminate.
  - vm_compute. reflexivity.
Defined.

Lemma sentence_free_starts (s : string) :
  sentence_free s = true -> forall i, sentence_starts i s = [].
Proof.
  induction s as [|a rest IH]; intros H i; cbn [sentence_starts];
    [reflexivity|].
  cbn [sentence_free] in H. apply andb_true_iff in H.
  destruct H as [Ha Hrest]. apply negb_true_iff in Ha.
  destruct rest; [reflexivity|]. rewrite Ha. cbn [andb]. now apply IH.
Qed.

Lemma sentence_free_substring (s : string) :
  sentence_free s = true ->
  forall n m, sentence_free (substring n m s) = true.
Proof.
  induction s as [|a rest IH]; intros H n m.
  - now destruct n, m.
  - cbn [sentence_free] in H. apply andb_true_iff in H.
    destruct H as [Ha Hrest].
    destruct n as [|n]; destruct m as [|m]; cbn [substring sentence_free];
      try reflexivity; try (now apply IH).
    rewrite Ha. now apply IH.
Qed.

Lemma window_end_sentence_free (text : string) (chunk_size start : Z) :
  sentence_free text = true ->
  window_end text chunk_size start = start + chunk_size.
Proof.
  intros H. unfold window_end, slice.
  rewrite sentence_free_starts by now apply sentence_free_substring.
  now destruct (_ <? _).
Qed.

(** X17.  With an [overlap] that is not smaller than [chunk_size] the
    loop of [_chunk_text] does not end on a text that is longer than
    [chunk_size] and has no sentence end: the next window begins where
    the last one began or before it, whatever the number of rounds. *)
Theorem chunk_text_overlap_too_large :
  forall (text : string) (chunk_size overlap : Z),
    sentence_free text = true ->
    0 < chunk_size -> chunk_size < len text -> chunk_size <= overlap ->
    forall fuel, _chunk_text fuel text chunk_size overlap = None.
Proof.
  intros text chunk_size overlap Hfree Hpos Hlong Hoverlap fuel.
  unfold _chunk_text.
  replace (nonempty text) with true
    by (destruct text; [cbn in Hlong; lia | reflexivity]).
  replace (len text <? chunk_size) with false
    by (symmetry; apply Z.ltb_ge; lia).
  cbn [negb orb].
  assert (H : forall fuel chunks start index,
             start <= 0 ->
             chunk_loop fuel text chunk_size overlap chunks start index
             = None).
  { clear fuel. induction fuel as [|fuel IH]; intros chunks start index Hstart;
      cbn [chunk_loop];
      replace (start <? len text) with true
        by (symmetry; apply Z.ltb_lt; lia);
      [reflexivity|].
    rewrite (window_end_sentence_free text chunk_size start Hfree).
    replace (start + chunk_size <? len text) with true
      by (symmetry; apply Z.ltb_lt; lia).
    destruct (nonempty _); apply IH; lia. }
  apply H. lia.
Qed.

Lemma chunk_text_overlap_too_large_witness :
  _chunk_text 1000 no_sentence 4 4 = None.
Proof.
  apply (chunk_text_overlap_too_large no_sentence 4 4); try reflexivity;
    cbn; lia.
Defined.
